(** * SWAPI data manager: a shallow embedding of [main.py] and
      [swapi_manager.py]

    The repository holds two revisions of one small pipeline: pages of JSON
    records are fetched from an HTTP API, turned into pandas data frames by
    per-entity processors, optionally stripped of some columns, and written
    to an Excel workbook, one sheet per entity.

    The Python code is embedded as pure functions.  Exceptions are values of
    [result]; the manager's attributes are threaded explicitly; the only
    unbounded loop ([while url:] in [swapi_manager.py]) takes fuel.  The few
    operations of [requests] and [pandas] the code calls have models of their
    own, ahead of the two programs: a server is a function from URLs to
    responses, a data frame a list of column labels with a list of rows.
    Numbers are kept abstract: how pandas reads a number and how the dtype
    of a column stores it are operations of the class [Numeric]. *)

From Stdlib Require Import ZArith Ascii.
From stdpp Require Import base option list strings gmap.

Set Warnings "-register-all".


(** ** Python exceptions and results *)

Module Python.

(** The exceptions the two files can raise.  [KeyError_not_in_axis] is the
    [KeyError] pandas raises from [drop]; it lists the missing labels.
    [ConnectionError] stands for the exceptions of [requests.get] itself,
    [JSONDecodeError] for the one of [response.json()]. *)
Inductive exn :=
| HTTPError (status : Z) (url : string)
| KeyError (key : string)
| KeyError_not_in_axis (labels : list string)
| ValueError (msg : string)
| ConnectionError (url : string)
| JSONDecodeError.

Inductive result (A : Type) :=
| Returned (a : A)
| Raised (e : exn).
Arguments Returned {A} a.
Arguments Raised {A} e.

#[global] Instance result_ret : MRet result := fun A a => Returned a.
#[global] Instance result_bind : MBind result := fun A B f r =>
  match r with
  | Returned a => f a
  | Raised e => Raised e
  end.

(** Truth value of a [str] or [None]: only a non-empty string is true. *)
Definition truthy (url : option string) : bool :=
  match url with
  | Some (String _ _) => true
  | _ => false
  end.

(** An insertion-ordered [dict] with string keys: [d[k] = v] keeps the
    position of a key that is already there and appends a new one. *)
Section Dict.
Context {V : Type}.

Fixpoint dict_get (k : string) (d : list (string * V)) : option V :=
  match d with
  | [] => None
  | (k', v) :: d' => if decide (k' = k) then Some v else dict_get k d'
  end.

Fixpoint dict_set (k : string) (v : V) (d : list (string * V))
  : list (string * V) :=
  match d with
  | [] => [(k, v)]
  | (k', v') :: d' =>
      if decide (k' = k) then (k, v) :: d' else (k', v') :: dict_set k v d'
  end.

Definition dict_keys (d : list (string * V)) : list string := d.*1.
End Dict.

(** [str.capitalize] on ASCII text: the first character in upper case, the
    others in lower case.  Names are taken to be ASCII: Python changes the
    case of letters outside ASCII too, which are left as they are here. *)
Definition upper (a : ascii) : ascii :=
  let n := nat_of_ascii a in
  if (97 <=? n)%nat && (n <=? 122)%nat then ascii_of_nat (n - 32) else a.

Definition lower (a : ascii) : ascii :=
  let n := nat_of_ascii a in
  if (65 <=? n)%nat && (n <=? 90)%nat then ascii_of_nat (n + 32) else a.

Fixpoint lower_all (s : string) : string :=
  match s with
  | EmptyString => EmptyString
  | String a s' => String (lower a) (lower_all s')
  end.

Definition capitalize (s : string) : string :=
  match s with
  | EmptyString => EmptyString
  | String a s' => String (upper a) (lower_all s')
  end.

(** [s.split(sep)] for a separator of one character: the pieces of [s]
    between the separators, so always at least one piece. *)
Fixpoint str_split (sep : ascii) (s : string) : list string :=
  match s with
  | EmptyString => [EmptyString]
  | String a s' =>
      if decide (a = sep) then EmptyString :: str_split sep s'
      else match str_split sep s' with
           | piece :: pieces => String a piece :: pieces
           | [] => [String a EmptyString]
           end
  end.

(** [sep.join(pieces)] *)
Fixpoint str_join (sep : ascii) (pieces : list string) : string :=
  match pieces with
  | [] => EmptyString
  | [piece] => piece
  | piece :: pieces' => piece +:+ String sep (str_join sep pieces')
  end.

End Python.
Export Python.

(** ** JSON values and HTTP responses *)

Module Json.

(** A decoded JSON value; [number] is the type of Python numbers. *)
Inductive json (number : Type) :=
| JNull
| JBool (b : bool)
| JNum (n : number)
| JStr (s : string)
| JList (items : list (json number))
| JDict (fields : list (string * json number)).
Arguments JNull {number}.
Arguments JBool {number} b.
Arguments JNum {number} n.
Arguments JStr {number} s.
Arguments JList {number} items.
Arguments JDict {number} fields.

(** A raw record is a [dict] from field names to values. *)
Definition record (number : Type) : Type := list (string * json number).

(** The [next] field of a page. *)
Inductive next_field :=
| NextAbsent
| NextNull
| NextUrl (url : string).

(** The body of a page; [results = None] stands for a body without the key
    ["results"]. *)
Record page (number : Type) := Page {
  results : option (list (record number));
  next : next_field
}.
Arguments Page {number} results next.
Arguments results {number} p.
Arguments next {number} p.

(** [data.get('next')] *)
Definition get_next {number} (data : page number) : option string :=
  match next data with
  | NextUrl u => Some u
  | NextAbsent | NextNull => None
  end.

(** A response: its status code and its body, which is [None] when it does
    not decode to a JSON object. *)
Record response (number : Type) := Response {
  status_code : Z;
  body : option (page number)
}.
Arguments Response {number} status_code body.
Arguments status_code {number} r.
Arguments body {number} r.

(** What [requests.get(url)] gives: a response or an exception. *)
Definition server (number : Type) : Type := string -> result (response number).

(** [response.raise_for_status()]: [HTTPError] for the client and server
    error codes, 400 to 599, and for no other status. *)
Definition raise_for_status {number} (url : string) (r : response number)
  : result unit :=
  if (400 <=? status_code r)%Z && (status_code r <? 600)%Z
  then Raised (HTTPError (status_code r) url)
  else Returned ().

(** [response.json()] *)
Definition response_json {number} (r : response number) : result (page number) :=
  match body r with
  | Some data => Returned data
  | None => Raised JSONDecodeError
  end.

(** The three statements both [fetch_json] start a request with:
    [response = requests.get(url)], [response.raise_for_status()] and
    [response.json()]. *)
Definition get_page {number} (srv : server number) (url : string)
  : result (page number) :=
  response ← srv url;
  _ ← raise_for_status url response;
  response_json response.

End Json.
Export Json.

(** ** The part of pandas the code uses *)

Module Pandas.

(** A cell holds a value or is missing.  [NaN] stands for both missing
    values of pandas, [None] and [nan]; [Val] never holds a null made by
    pandas. *)
Inductive cell (number : Type) :=
| NaN
| Val (v : json number).
Arguments NaN {number}.
Arguments Val {number} v.

(** How pandas reads and stores numbers.  A [number] is a numeric value,
    whether Python holds it as an [int] or as a [float].  [parse_number] is
    the number [to_numeric] reads out of a string, [number_of_bool] the
    number a [bool] is.  A number is stored as the dtype of its column has
    it (a float64 beside a missing value, say): [frame_number raw n] is what
    [pd.DataFrame] stores for [n] in a column made of the values [raw]
    ([None] where a record lacks the field), and [numeric_number series n]
    what [to_numeric] stores for [n] in the converted column [series].
    [exact n] says that every numeric dtype holds the value [n] as it is,
    as it does an integer below 2^53 in absolute value; such a number is
    stored unchanged. *)
Class Numeric (number : Type) := {
  parse_number : string -> option number;
  number_of_bool : bool -> number;
  frame_number : list (option (json number)) -> number -> number;
  numeric_number : list (cell number) -> number -> number;
  exact : number -> Prop;
  frame_number_exact raw n : exact n -> frame_number raw n = n;
  numeric_number_exact series n : exact n -> numeric_number series n = n
}.

Section Frame.
Context {number : Type} {numeric : Numeric number}.

Record DataFrame := Frame {
  columns : list string;
  rows : list (list (cell number))
}.

(** Column labels of [pd.DataFrame(json_data)]: the keys of the records
    in the order in which they are first seen. *)
Fixpoint add_keys (seen keys : list string) : list string :=
  match keys with
  | [] => seen
  | k :: ks =>
      add_keys (if decide (k ∈ seen) then seen else seen ++ [k]) ks
  end.

Definition frame_columns (json_data : list (record number)) : list string :=
  foldl (fun seen rec => add_keys seen (dict_keys rec)) [] json_data.

(** The values of the field [c], record by record. *)
Definition raw_series (json_data : list (record number)) (c : string)
  : list (option (json number)) :=
  (fun rec => dict_get c rec) <$> json_data.

(** What the frame stores for a value of a column: a null is a missing
    cell, a number is stored as the column has it, anything else as it is. *)
Definition stored_value (raw : list (option (json number))) (v : json number)
  : cell number :=
  match v with
  | JNull => NaN
  | JNum n => Val (JNum (frame_number raw n))
  | _ => Val v
  end.

(** The cell of a record under the column [c]; a key the record lacks gives
    a missing cell. *)
Definition record_cell (json_data : list (record number)) (rec : record number)
  (c : string) : cell number :=
  match dict_get c rec with
  | Some v => stored_value (raw_series json_data c) v
  | None => NaN
  end.

(** [pd.DataFrame(json_data)] *)
Definition DataFrame_of (json_data : list (record number)) : DataFrame :=
  let cols := frame_columns json_data in
  {| columns := cols;
     rows := (fun rec => record_cell json_data rec <$> cols) <$> json_data |}.

(** The cell of [row] under the column labelled [c]. *)
Fixpoint cell_at (cols : list string) (row : list (cell number)) (c : string)
  : option (cell number) :=
  match cols, row with
  | c' :: cols', v :: row' =>
      if decide (c' = c) then Some v else cell_at cols' row' c
  | _, _ => None
  end.

(** [df[c]]: the column as a series, [KeyError] when there is none. *)
Definition getitem (df : DataFrame) (c : string) : result (list (cell number)) :=
  if decide (c ∈ columns df)
  then Returned ((fun row => default NaN (cell_at (columns df) row c)) <$> rows df)
  else Raised (KeyError c).

Fixpoint set_cell (cols : list string) (row : list (cell number)) (c : string)
  (v : cell number) : list (cell number) :=
  match cols, row with
  | c' :: cols', w :: row' =>
      if decide (c' = c) then v :: row' else w :: set_cell cols' row' c v
  | _, _ => row
  end.

(** [df[c] = series]: an existing column is overwritten where it stands,
    a new one is appended as the last column. *)
Definition setitem (df : DataFrame) (c : string) (series : list (cell number))
  : DataFrame :=
  if decide (c ∈ columns df)
  then {| columns := columns df;
          rows := zip_with (fun row v => set_cell (columns df) row c v)
                           (rows df) series |}
  else {| columns := columns df ++ [c];
          rows := zip_with (fun row v => row ++ [v]) (rows df) series |}.

(** The cells of a row that stay when the columns [labels] go. *)
Fixpoint keep_cells (cols labels : list string) (row : list (cell number))
  : list (cell number) :=
  match cols, row with
  | c :: cols', v :: row' =>
      if decide (c ∈ labels) then keep_cells cols' labels row'
      else v :: keep_cells cols' labels row'
  | _, _ => []
  end.

(** [df.drop(columns=labels)] with the default [errors='raise']: every
    label has to be a column; the new frame is built only after that
    check. *)
Definition drop_columns (df : DataFrame) (labels : list string)
  : result DataFrame :=
  match filter (fun l => l ∉ columns df) labels with
  | [] => Returned {| columns := filter (fun c => c ∉ labels) (columns df);
                      rows := keep_cells (columns df) labels <$> rows df |}
  | missing => Raised (KeyError_not_in_axis missing)
  end.

(** [df.drop(columns=labels, inplace=True)]: the frame object after the
    call, and the outcome of the call.  pandas builds the new frame first
    ([obj = self._drop_axis(...)]) and then puts it in the place of the old
    one ([self._update_inplace(obj)]); an exception of the first step leaves
    the second undone. *)
Definition drop_inplace (df : DataFrame) (labels : list string)
  : DataFrame * result unit :=
  match drop_columns df labels with
  | Returned obj => (obj, Returned ())
  | Raised e => (df, Raised e)
  end.

(** [pd.to_numeric(series, errors='coerce')].  A series of [bool] dtype
    is numeric already and comes back as it is; otherwise each cell is
    converted, and what has no numeric reading becomes missing. *)
Definition is_bool_cell (c : cell number) : bool :=
  match c with
  | Val (JBool _) => true
  | _ => false
  end.

Definition coerce_cell (series : list (cell number)) (c : cell number)
  : cell number :=
  match c with
  | Val (JNum n) => Val (JNum (numeric_number series n))
  | Val (JBool b) => Val (JNum (numeric_number series (number_of_bool b)))
  | Val (JStr s) =>
      match parse_number s with
      | Some n => Val (JNum (numeric_number series n))
      | None => NaN
      end
  | _ => NaN
  end.

Definition to_numeric (series : list (cell number)) : list (cell number) :=
  if forallb is_bool_cell series then series
  else coerce_cell series <$> series.

End Frame.
Arguments DataFrame number : clear implicits.

End Pandas.
Export Pandas.

(** ** Writing frames to a workbook *)

Module Excel.

Section Writer.
Context {number : Type}.

(** A cell of a sheet: a column label of the header row or a value. *)
Inductive xl_cell :=
| Header (label : string)
| Data (c : cell number).

Definition sheet : Type := list (list xl_cell).

(** The sheets of an open [pd.ExcelWriter], in the order of their creation. *)
Definition workbook : Type := list (string * sheet).

(** The grid [to_excel(..., index=False)] writes: the header, then the rows. *)
Definition frame_cells (df : DataFrame number) : sheet :=
  (Header <$> columns df) :: ((fun row : list (cell number) => Data <$> row) <$> rows df).

(** Cells written over a sheet that exists: what is written replaces what was
    there, the cells outside the written grid stay. *)
Fixpoint overlay_row (new old : list xl_cell) : list xl_cell :=
  match new, old with
  | [], _ => old
  | _, [] => new
  | x :: new', _ :: old' => x :: overlay_row new' old'
  end.

Fixpoint overlay (new old : sheet) : sheet :=
  match new, old with
  | [], _ => old
  | _, [] => new
  | r :: new', r' :: old' => overlay_row r r' :: overlay new' old'
  end.

(** [df.to_excel(writer, sheet_name=..., index=False)]: the writer creates
    the sheet unless it already has one of that name, which it writes into.
    What the engine of the writer does to a title (it renames one that
    differs from another in case only and refuses one that is too long) and
    its refusal to save a workbook without sheets are not modelled. *)
Definition to_excel (df : DataFrame number) (writer : workbook)
  (sheet_name : string) : workbook :=
  match dict_get sheet_name writer with
  | Some old => dict_set sheet_name (overlay (frame_cells df) old) writer
  | None => writer ++ [(sheet_name, frame_cells df)]
  end.

End Writer.
Arguments xl_cell number : clear implicits.
Arguments sheet number : clear implicits.
Arguments workbook number : clear implicits.

End Excel.
Export Excel.

(** ** [swapi_manager.py] *)

Module SwapiManager.

Section Program.
Context {number : Type} {numeric : Numeric number}.

Record SWAPIClient := Client { base_url : string }.

(** The [url] of [while url:] when it is true. *)
Definition true_url (url : option string) : option string :=
  if truthy url then url else None.

(** The loop of [fetch_json]; [None] when the fuel runs out. *)
Fixpoint fetch_pages (fuel : nat) (srv : server number) (url : option string)
  (all_data : list (record number)) : option (result (list (record number))) :=
  match true_url url with
  | None => Some (Returned all_data)
  | Some u =>
      match fuel with
      | O => None
      | S fuel' =>
          match get_page srv u with
          | Raised e => Some (Raised e)
          | Returned data =>
              match results data with
              | None => Some (Raised (KeyError "results"))
              | Some rs => fetch_pages fuel' srv (get_next data) (all_data ++ rs)
              end
          end
      end
  end.

Definition fetch_json (fuel : nat) (srv : server number) (self : SWAPIClient)
  (endpoint : string) : option (result (list (record number))) :=
  fetch_pages fuel srv (Some (base_url self +:+ endpoint)) [].

(** An object with a [process] method. *)
Record EntityProcessor := Processor {
  process : list (record number) -> result (DataFrame number)
}.

Definition PeopleProcessor : EntityProcessor :=
  {| process json_data :=
       let df := DataFrame_of json_data in
       name ← getitem df "name";
       mret (setitem df "full_name" name) |}.

Definition FilmsProcessor : EntityProcessor :=
  {| process json_data :=
       let df := DataFrame_of json_data in
       title ← getitem df "title";
       mret (setitem df "film_titles" title) |}.

Definition PlanetsProcessor : EntityProcessor :=
  {| process json_data :=
       let df := DataFrame_of json_data in
       population ← getitem df "population";
       mret (setitem df "population" (to_numeric population)) |}.

Record SWAPIDataManager := Manager {
  client : SWAPIClient;
  data : list (string * DataFrame number);
  processors : gmap string EntityProcessor
}.

Definition init (client : SWAPIClient) : SWAPIDataManager :=
  {| client := client; data := []; processors := ∅ |}.

Definition set_data (self : SWAPIDataManager)
  (data' : list (string * DataFrame number)) : SWAPIDataManager :=
  {| client := client self; data := data'; processors := processors self |}.

Definition register_processor (self : SWAPIDataManager) (endpoint : string)
  (processor : EntityProcessor) : SWAPIDataManager :=
  {| client := client self; data := data self;
     processors := <[endpoint := processor]> (processors self) |}.

(** The pages are fetched first; a name without a processor is then skipped
    ([if processor:]). *)
Definition fetch_entity (fuel : nat) (srv : server number)
  (self : SWAPIDataManager) (endpoint : string)
  : option (SWAPIDataManager * result unit) :=
  match fetch_json fuel srv (client self) endpoint with
  | None => None
  | Some (Raised e) => Some (self, Raised e)
  | Some (Returned json_data) =>
      match processors self !! endpoint with
      | Some processor =>
          match process processor json_data with
          | Returned df =>
              Some (set_data self (dict_set endpoint df (data self)), Returned ())
          | Raised e => Some (self, Raised e)
          end
      | None => Some (self, Returned ())
      end
  end.

(** The frame stored under the name is changed in place: the store holds,
    after the call, the frame as [drop] left it. *)
Definition apply_filter (self : SWAPIDataManager) (endpoint : string)
  (columns_to_drop : list string) : SWAPIDataManager * result unit :=
  match dict_get endpoint (data self) with
  | Some df =>
      let '(df', outcome) := drop_inplace df columns_to_drop in
      (set_data self (dict_set endpoint df' (data self)), outcome)
  | None => (self, Returned ())
  end.

(** The sheets the writer holds when the [with] block ends. *)
Definition save_to_excel (self : SWAPIDataManager) : workbook number :=
  foldl (fun writer item => to_excel item.2 writer (capitalize item.1))
        [] (data self).

(** The loop of [main] over the end points: fetch, then drop the columns
    the filters name for the end point.  The first exception ends it. *)
Fixpoint main_loop (fuel : nat) (srv : server number)
  (manager : SWAPIDataManager) (filters : gmap string (list string))
  (endpoints : list string) : option (SWAPIDataManager * result unit) :=
  match endpoints with
  | [] => Some (manager, Returned ())
  | endpoint :: endpoints' =>
      match fetch_entity fuel srv manager endpoint with
      | None => None
      | Some (manager, Raised e) => Some (manager, Raised e)
      | Some (manager, Returned _) =>
          match filters !! endpoint with
          | Some columns_to_drop =>
              match apply_filter manager endpoint columns_to_drop with
              | (manager, Raised e) => Some (manager, Raised e)
              | (manager, Returned _) =>
                  main_loop fuel srv manager filters endpoints'
              end
          | None => main_loop fuel srv manager filters endpoints'
          end
      end
  end.

(** The manager [main] sets up. *)
Definition main_manager : SWAPIDataManager :=
  register_processor
    (register_processor
       (register_processor (init (Client "https://swapi.dev/api/"))
          "people" PeopleProcessor)
       "planets" PlanetsProcessor)
    "films" FilmsProcessor.

(** [main], given the value of [--endpoint] and the decoded [--filters] (the
    empty dictionary when the option is not given): the workbook it saves,
    or the exception that ends it.  Every retrieval has [fuel] requests. *)
Definition main (fuel : nat) (srv : server number) (endpoint : string)
  (filters : gmap string (list string)) : option (result (workbook number)) :=
  match main_loop fuel srv main_manager filters (str_split "," endpoint) with
  | None => None
  | Some (_, Raised e) => Some (Raised e)
  | Some (manager, Returned _) => Some (Returned (save_to_excel manager))
  end.

End Program.
Arguments EntityProcessor number : clear implicits.
Arguments SWAPIDataManager number : clear implicits.

End SwapiManager.

(** ** [main.py] *)

Module Main.

Section Program.
Context {number : Type} {numeric : Numeric number}.

Record SWAPIClient := Client { base_url : string }.

(** One request; the [next] field of the page is not read. *)
Definition fetch_json (srv : server number) (self : SWAPIClient)
  (endpoint : string) : result (list (record number)) :=
  let url := base_url self +:+ "/" +:+ endpoint +:+ "/" in
  match get_page srv url with
  | Raised e => Raised e
  | Returned data =>
      match results data with
      | None => Raised (KeyError "results")
      | Some rs => Returned rs
      end
  end.

Record EntityProcessor := Processor {
  process : list (record number) -> result (DataFrame number)
}.

Definition PeopleProcessor : EntityProcessor :=
  {| process json_data :=
       let df := DataFrame_of json_data in
       name ← getitem df "name";
       mret (setitem df "full_name" name) |}.

Definition FilmsProcessor : EntityProcessor :=
  {| process json_data :=
       let df := DataFrame_of json_data in
       title ← getitem df "title";
       mret (setitem df "film_title" title) |}.

Definition PlanetsProcessor : EntityProcessor :=
  {| process json_data :=
       let df := DataFrame_of json_data in
       population ← getitem df "population";
       mret (setitem df "population" (to_numeric population)) |}.

Record SWAPIDataManager := Manager {
  client : SWAPIClient;
  data : list (string * DataFrame number);
  processors : gmap string EntityProcessor
}.

Definition init (client : SWAPIClient) : SWAPIDataManager :=
  {| client := client; data := []; processors := ∅ |}.

Definition set_data (self : SWAPIDataManager)
  (data' : list (string * DataFrame number)) : SWAPIDataManager :=
  {| client := client self; data := data'; processors := processors self |}.

Definition register_processor (self : SWAPIDataManager) (endpoint : string)
  (processor : EntityProcessor) : SWAPIDataManager :=
  {| client := client self; data := data self;
     processors := <[endpoint := processor]> (processors self) |}.

(** The registry is checked before anything is requested. *)
Definition fetch_entity (srv : server number) (self : SWAPIDataManager)
  (endpoint : string) : SWAPIDataManager * result unit :=
  match processors self !! endpoint with
  | None =>
      (self, Raised (ValueError ("Не зареєстровано процесор для " +:+ endpoint)))
  | Some processor =>
      match fetch_json srv (client self) endpoint with
      | Raised e => (self, Raised e)
      | Returned json_data =>
          match process processor json_data with
          | Returned df =>
              (set_data self (dict_set endpoint df (data self)), Returned ())
          | Raised e => (self, Raised e)
          end
      end
  end.

Definition save_to_excel (self : SWAPIDataManager) : workbook number :=
  foldl (fun writer item => to_excel item.2 writer item.1) [] (data self).

(** The manager the script sets up. *)
Definition script_manager : SWAPIDataManager :=
  register_processor
    (register_processor
       (register_processor (init (Client "https://swapi.dev/api/"))
          "people" PeopleProcessor)
       "planets" PlanetsProcessor)
    "films" FilmsProcessor.

(** The script under [if __name__ == "__main__":]: the workbook it saves, or
    the exception that ends it. *)
Definition script (srv : server number) : result (workbook number) :=
  match fetch_entity srv script_manager "people" with
  | (_, Raised e) => Raised e
  | (manager, Returned _) =>
      match fetch_entity srv manager "planets" with
      | (_, Raised e) => Raised e
      | (manager, Returned _) =>
          match fetch_entity srv manager "films" with
          | (_, Raised e) => Raised e
          | (manager, Returned _) => Returned (save_to_excel manager)
          end
      end
  end.

End Program.
Arguments EntityProcessor number : clear implicits.
Arguments SWAPIDataManager number : clear implicits.

End Main.

(** ** Small integers as numbers

    An instance of [Numeric] for running the code on examples.  Its numbers
    are the integers below 2^53 in absolute value: float64 and the integer
    dtypes all hold these exactly, so a column stores such a number as it
    is, whatever its dtype.  A string is a number when it is a decimal
    integer literal of such a value (the form the population strings of the
    API have); pandas reads more strings as numbers than that, and the
    examples keep to strings on which the two agree. *)

Module Decimal.

Record small := Small {
  small_value : Z;
  small_bound : Is_true (Z.abs small_value <? 2 ^ 53)%Z
}.

Definition small_of (z : Z) : option small :=
  match (Z.abs z <? 2 ^ 53)%Z as b return (Is_true b -> small) -> option small with
  | true => fun make => Some (make I)
  | false => fun _ => None
  end (Small z).

Fixpoint digits (s : string) (acc : Z) : option Z :=
  match s with
  | EmptyString => Some acc
  | String a s' =>
      let n := nat_of_ascii a in
      if (48 <=? n)%nat && (n <=? 57)%nat
      then digits s' (10 * acc + Z.of_nat (n - 48))%Z
      else None
  end.

Definition parse_decimal (s : string) : option Z :=
  match s with
  | EmptyString => None
  | String "-" (String _ _ as s') => Z.opp <$> digits s' 0%Z
  | _ => digits s 0%Z
  end.

#[global] Instance decimal_numeric : Numeric small := {|
  parse_number s := parse_decimal s ≫= small_of;
  number_of_bool b := if b then Small 1 I else Small 0 I;
  frame_number _ n := n;
  numeric_number _ n := n;
  exact _ := True;
  frame_number_exact _ _ _ := eq_refl;
  numeric_number_exact _ _ _ := eq_refl
|}.

End Decimal.

(** ** Notions the statements use *)

Section Notions.
Context {number : Type} {numeric : Numeric number}.

(** The row of [rec] under the columns [cols]: each column holds what the
    frame of [json_data] stores for the field of that name, or a missing
    cell when the record has none, except the column [target], which holds
    [f] of the cell of the field [source]. *)
Definition derived_row (target source : string)
  (f : cell number -> cell number) (json_data : list (record number))
  (cols : list string) (rec : record number) : list (cell number) :=
  (fun c => if decide (c = target) then f (record_cell json_data rec source)
            else record_cell json_data rec c) <$> cols.

(** [df] has one row for each record of [json_data], in the same order, and
    the row of a record is [row_of] that record. *)
Definition row_per_record (json_data : list (record number))
  (df : DataFrame number) (row_of : record number -> list (cell number))
  : Prop :=
  length (rows df) = length json_data ∧
  ∀ i rec, json_data !! i = Some rec → rows df !! i = Some (row_of rec).

(** The columns after [df[target] = ...] on the frame of [json_data]: the
    field names of the records in the order in which they are first seen,
    and then [target] unless it is one of them. *)
Definition columns_with (json_data : list (record number)) (target : string)
  : list string :=
  if decide (target ∈ frame_columns json_data) then frame_columns json_data
  else frame_columns json_data ++ [target].

(** The column [c] of the frame of [json_data], as a series. *)
Definition field_series (json_data : list (record number)) (c : string)
  : list (cell number) :=
  (fun rec => record_cell json_data rec c) <$> json_data.

(** What a processor that copies the field [source] into the column [target]
    through [f] returns: a frame when some record has the field, [KeyError]
    otherwise. *)
Definition processed (data : list (record number))
  (target source : string) (f : cell number -> cell number)
  : result (DataFrame number) :=
  if decide (source ∈ frame_columns data)
  then Returned {| columns := columns_with data target;
                   rows := derived_row target source f data
                             (columns_with data target) <$> data |}
  else Raised (KeyError source).

(** What [to_numeric] makes of one cell of [series]. *)
Definition numeric_cell (series : list (cell number)) (c : cell number)
  : cell number :=
  if forallb is_bool_cell series then c else coerce_cell series c.

(** The number a cell holds, if any. *)
Definition cell_number (c : cell number) : option number :=
  match c with
  | Val v =>
      match v with
      | JNum n => Some n
      | JBool b => Some (number_of_bool b)
      | _ => None
      end
  | NaN => None
  end.

(** A frame is rectangular: no label stands for two columns, and every row
    has one cell for each column. *)
Definition rectangular (df : DataFrame number) : Prop :=
  NoDup (columns df) ∧
  Forall (fun row => length row = length (columns df)) (rows df).

(** The grid of a sheet that holds the frame [df] and nothing else. *)
Definition sheet_of (df : DataFrame number) : sheet number :=
  (Header <$> columns df) ::
  ((fun row : list (cell number) => Data <$> row) <$> rows df).

End Notions.

(** ** Page chains and reachable managers *)

Section Runs.
Context {number : Type} {numeric : Numeric number}.

(** [chain srv url pages]: requesting [url] and then each [next] link in turn
    gives successful pages whose [results] are [pages], and the last of them
    has no [next] to follow (absent, null or empty). *)
Inductive chain (srv : server number)
  : option string -> list (list (record number)) -> Prop :=
| chain_end url :
    truthy url = false -> chain srv url []
| chain_page u data rs pages :
    truthy (Some u) = true ->
    get_page srv u = Returned data ->
    results data = Some rs ->
    chain srv (get_next data) pages ->
    chain srv (Some u) (rs :: pages).

(** [breaks srv url status bad]: following the pages from [url], the request
    to [bad] is answered with the status [status], an error code from 400 to
    599; the pages before it are successful. *)
Inductive breaks (srv : server number)
  : option string -> Z -> string -> Prop :=
| breaks_here u response :
    truthy (Some u) = true ->
    srv u = Returned response ->
    (400 ≤ status_code response < 600)%Z ->
    breaks srv (Some u) (status_code response) u
| breaks_later u data rs status bad :
    truthy (Some u) = true ->
    get_page srv u = Returned data ->
    results data = Some rs ->
    breaks srv (get_next data) status bad ->
    breaks srv (Some u) status bad.

(** [follows srv url pages url']: requesting [url] and then each [next] link
    in turn gives successful pages whose [results] are [pages], and the
    [next] of the last of them is [url']. *)
Inductive follows (srv : server number)
  : option string -> list (list (record number)) -> option string -> Prop :=
| follows_none url :
    follows srv url [] url
| follows_page u data rs pages url' :
    truthy (Some u) = true ->
    get_page srv u = Returned data ->
    results data = Some rs ->
    follows srv (get_next data) pages url' ->
    follows srv (Some u) (rs :: pages) url'.

(** The names a call of [fetch_entity] stores a table under. *)
Definition stored_by (self : SwapiManager.SWAPIDataManager number)
  (endpoint : string) (outcome : result unit) : list string :=
  match outcome, SwapiManager.processors self !! endpoint with
  | Returned _, Some _ => [endpoint]
  | _, _ => []
  end.

(** [reachable history self]: [self] is a manager of [swapi_manager.py] after
    some calls of its methods, any of which may have raised; [history] lists,
    in order, the names under which the calls of [fetch_entity] stored a
    table.  Each call may see another server. *)
Inductive reachable
  : list string -> SwapiManager.SWAPIDataManager number -> Prop :=
| reach_init client :
    reachable [] (SwapiManager.init client)
| reach_register history self endpoint processor :
    reachable history self ->
    reachable history (SwapiManager.register_processor self endpoint processor)
| reach_fetch history self fuel srv endpoint self' outcome :
    reachable history self ->
    SwapiManager.fetch_entity fuel srv self endpoint = Some (self', outcome) ->
    reachable (history ++ stored_by self endpoint outcome) self'
| reach_filter history self endpoint columns_to_drop :
    reachable history self ->
    reachable history (SwapiManager.apply_filter self endpoint columns_to_drop).1.

End Runs.

(** ** Sample data

    Records, servers and managers over small integers, for running the code. *)

Module Sample.
Import Decimal.

(** A response with the status 200 and a page, and one with another status
    and no JSON body. *)
Definition answer (data : page small) : result (response small) :=
  Returned (Response 200 (Some data)).

Definition status (code : Z) : result (response small) :=
  Returned (Response code None).

Definition luke : record small := [("name", JStr "Luke"); ("height", JStr "172")].
Definition leia : record small := [("name", JStr "Leia"); ("height", JStr "150")].
Definition han : record small := [("name", JStr "Han"); ("height", JStr "180")].

(** Two pages of people, reachable under the URL either file builds from the
    base URL and the end point ["people"]; anything else is not found. *)
Definition two_pages : server small := fun url =>
  if decide (url = "api/people") then
    answer (Page (Some [luke; leia]) (NextUrl "api/people?page=2"))
  else if decide (url = "api/people/") then
    answer (Page (Some [luke; leia]) (NextUrl "api/people?page=2"))
  else if decide (url = "api/people?page=2") then
    answer (Page (Some [han]) NextNull)
  else status 404.

(** The second page is answered with a server error. *)
Definition broken_second_page : server small := fun url =>
  if decide (url = "api/people") then
    answer (Page (Some [luke; leia]) (NextUrl "api/people?page=2"))
  else status 500.

(** The frame the People processor makes of Luke and Leia. *)
Definition luke_leia : DataFrame small :=
  {| columns := ["name"; "height"; "full_name"];
     rows := [[Val (JStr "Luke"); Val (JStr "172"); Val (JStr "Luke")];
              [Val (JStr "Leia"); Val (JStr "150"); Val (JStr "Leia")]] |}.

Definition planets : list (record small) :=
  [[("population", JStr "1000")]; [("population", JStr "unknown")];
   [("population", JStr "42")]].

(** A record without a name, and one that brings its own [full_name]. *)
Definition nameless : record small := [("height", JStr "96")].
Definition alias : record small :=
  [("name", JStr "Anakin"); ("full_name", JStr "Darth Vader")].

(** A table with the columns a, b, c and two rows, stored under ["t"]. *)
Definition abc : DataFrame small :=
  {| columns := ["a"; "b"; "c"];
     rows := [[Val (JNum (Small 1 I)); Val (JNum (Small 2 I));
               Val (JNum (Small 3 I))];
              [Val (JNum (Small 4 I)); Val (JNum (Small 5 I));
               Val (JNum (Small 6 I))]] |}.

Definition abc_manager : SwapiManager.SWAPIDataManager small :=
  {| SwapiManager.client := SwapiManager.Client "api/";
     SwapiManager.data := [("t", abc)];
     SwapiManager.processors := ∅ |}.

(** A manager of each file with the People processor registered for
    ["people"], and nothing fetched yet. *)
Definition swapi_manager : SwapiManager.SWAPIDataManager small :=
  SwapiManager.register_processor
    (SwapiManager.init (SwapiManager.Client "api/"))
    "people" SwapiManager.PeopleProcessor.

Definition main_manager : Main.SWAPIDataManager small :=
  Main.register_processor (Main.init (Main.Client "api"))
    "people" Main.PeopleProcessor.

(** The first page links to itself. *)
Definition looping : server small := fun url =>
  if decide (url = "api/people") then
    answer (Page (Some [luke]) (NextUrl "api/people"))
  else status 404.

(** The second page has no ["results"]. *)
Definition no_results_second_page : server small := fun url =>
  if decide (url = "api/people") then
    answer (Page (Some [luke; leia]) (NextUrl "api/people?page=2"))
  else if decide (url = "api/people?page=2") then
    answer (Page None NextNull)
  else status 404.

(** A server for the URLs the two programs build from their base URL: one
    page for the people of [swapi_manager.py], one page each for the people,
    planets and films of [main.py]. *)
Definition swapi_dev : server small := fun url =>
  if decide (url = "https://swapi.dev/api/people") then
    answer (Page (Some [luke; leia]) NextNull)
  else if decide (url = "https://swapi.dev/api//people/") then
    answer (Page (Some [luke]) (NextUrl "https://swapi.dev/api/people/?page=2"))
  else if decide (url = "https://swapi.dev/api//planets/") then
    answer (Page (Some [[("name", JStr "Tatooine"); ("population", JStr "200000")]])
             NextNull)
  else if decide (url = "https://swapi.dev/api//films/") then
    answer (Page (Some [[("title", JStr "A New Hope")]]) NextNull)
  else status 404.

(** What [main] of [swapi_manager.py] saves for the end point people with
    the filter that drops the height, and what the script of [main.py]
    saves, both from [swapi_dev]. *)
Definition main_workbook : workbook small :=
  [("People",
    [[Header "name"; Header "full_name"];
     [Data (Val (JStr "Luke")); Data (Val (JStr "Luke"))];
     [Data (Val (JStr "Leia")); Data (Val (JStr "Leia"))]])].

Definition script_workbook : workbook small :=
  [("people",
    [[Header "name"; Header "height"; Header "full_name"];
     [Data (Val (JStr "Luke")); Data (Val (JStr "172")); Data (Val (JStr "Luke"))]]);
   ("planets",
    [[Header "name"; Header "population"];
     [Data (Val (JStr "Tatooine")); Data (Val (JNum (Small 200000 I)))]]);
   ("films",
    [[Header "title"; Header "film_title"];
     [Data (Val (JStr "A New Hope")); Data (Val (JStr "A New Hope"))]])].

(** Every URL is answered with the status 300 and a page with Luke. *)
Definition multiple_choices : server small := fun _ =>
  Returned (Response 300 (Some (Page (Some [luke]) NextNull))).

Definition luke_frame : DataFrame small :=
  {| columns := ["name"; "height"; "full_name"];
     rows := [[Val (JStr "Luke"); Val (JStr "172"); Val (JStr "Luke")]] |}.

(** Processors for two names that differ in case only, a server that has
    Luke and Leia under the one and Han under the other, and the manager
    after both names are fetched from it. *)
Definition two_names : SwapiManager.SWAPIDataManager small :=
  SwapiManager.register_processor swapi_manager "People"
    SwapiManager.PeopleProcessor.

Definition two_cases : server small := fun url =>
  if decide (url = "api/people") then answer (Page (Some [luke; leia]) NextNull)
  else if decide (url = "api/People") then answer (Page (Some [han]) NextNull)
  else status 404.

Definition han_frame : DataFrame small :=
  {| columns := ["name"; "height"; "full_name"];
     rows := [[Val (JStr "Han"); Val (JStr "180"); Val (JStr "Han")]] |}.

Definition two_tables : SwapiManager.SWAPIDataManager small :=
  SwapiManager.set_data two_names [("people", luke_leia); ("People", han_frame)].

(** [swapi_manager] after ["people"] is fetched from [two_pages]. *)
Definition people_fetched : SwapiManager.SWAPIDataManager small :=
  SwapiManager.set_data swapi_manager
    [("people",
      {| columns := ["name"; "height"; "full_name"];
         rows := [[Val (JStr "Luke"); Val (JStr "172"); Val (JStr "Luke")];
                  [Val (JStr "Leia"); Val (JStr "150"); Val (JStr "Leia")];
                  [Val (JStr "Han"); Val (JStr "180"); Val (JStr "Han")]] |})].

End Sample.

(** * Facts about the model *)

(** ** Dictionaries *)

Section DictFacts.
Context {V : Type}.
Implicit Types (d : list (string * V)) (k : string).

Lemma dict_get_is_Some k d : is_Some (dict_get k d) ↔ k ∈ dict_keys d.
Proof.
  unfold dict_keys. induction d as [|[k' v] d IH]; simpl.
  - split; [intros [? ?]; discriminate | intros H; inversion H].
  - rewrite elem_of_cons. destruct (decide (k' = k)) as [->|Hne].
    + split; eauto.
    + rewrite IH. split; [auto | intros [?|?]; [congruence | done]].
Qed.

Lemma dict_get_None k d : dict_get k d = None ↔ k ∉ dict_keys d.
Proof. rewrite <- dict_get_is_Some, eq_None_not_Some. done. Qed.

Lemma dict_get_set_eq k v d : dict_get k (dict_set k v d) = Some v.
Proof.
  induction d as [|[k' v'] d IH]; simpl.
  - by rewrite decide_True.
  - destruct (decide (k' = k)) as [->|Hne]; simpl.
    + by rewrite decide_True.
    + by rewrite decide_False.
Qed.

Lemma dict_get_set_ne k k' v d : k ≠ k' → dict_get k' (dict_set k v d) = dict_get k' d.
Proof.
  intros Hne. induction d as [|[k0 v0] d IH]; simpl.
  - by rewrite decide_False.
  - destruct (decide (k0 = k)) as [->|Hne0]; simpl.
    + by rewrite !decide_False.
    + by rewrite IH.
Qed.

(** Assigning to a key that is there keeps the keys; a new key goes last. *)
Lemma dict_keys_set k v d :
  dict_keys (dict_set k v d) =
  if decide (k ∈ dict_keys d) then dict_keys d else dict_keys d ++ [k].
Proof.
  unfold dict_keys. induction d as [|[k' v'] d IH]; csimpl.
  - done.
  - destruct (decide (k' = k)) as [->|Hne]; csimpl.
    + rewrite decide_True by (by left). done.
    + rewrite IH. destruct (decide (k ∈ d.*1)) as [Hin|Hnin].
      * rewrite decide_True by (by right). done.
      * rewrite decide_False; [done |].
        rewrite elem_of_cons. intros [?|?]; [congruence | done].
Qed.

Lemma dict_set_NoDup k v d : NoDup (dict_keys d) → NoDup (dict_keys (dict_set k v d)).
Proof.
  intros Hnd. rewrite dict_keys_set. case_decide; [done |].
  apply NoDup_app. split_and!; [done | | apply NoDup_singleton].
  intros x Hx Hx'. apply list_elem_of_singleton in Hx'. congruence.
Qed.

(** Putting back what is there changes nothing. *)
Lemma dict_set_same k v d : dict_get k d = Some v → dict_set k v d = d.
Proof.
  induction d as [|[k' v'] d IH]; simpl; [done |].
  destruct (decide (k' = k)) as [->|Hne].
  - by intros [= ->].
  - intros Hget. by rewrite IH.
Qed.

End DictFacts.

(** ** Frames built from records *)

Section FrameFacts.
Context {number : Type} {numeric : Numeric number}.
Implicit Types (rec : record number) (data : list (record number)).
Implicit Types (cols keys seen : list string) (c : string).
Implicit Types (row : list (cell number)).

Lemma elem_of_add_keys c seen keys :
  c ∈ add_keys seen keys ↔ c ∈ seen ∨ c ∈ keys.
Proof.
  revert seen. induction keys as [|k ks IH]; intros seen; simpl.
  - split; [auto | intros [?|H]; [done | inversion H]].
  - rewrite IH, elem_of_cons. case_decide.
    + split; [tauto | intros [?|[->|?]]; auto].
    + rewrite elem_of_app, list_elem_of_singleton. tauto.
Qed.

Lemma NoDup_add_keys seen keys : NoDup seen → NoDup (add_keys seen keys).
Proof.
  revert seen. induction keys as [|k ks IH]; intros seen Hnd; simpl; [done |].
  apply IH. case_decide; [done |].
  apply NoDup_app. split_and!; [done | | apply NoDup_singleton].
  intros x Hx Hx'. apply list_elem_of_singleton in Hx'. congruence.
Qed.

Lemma elem_of_fold_keys c seen data :
  c ∈ foldl (fun seen rec => add_keys seen (dict_keys rec)) seen data ↔
  c ∈ seen ∨ ∃ rec, rec ∈ data ∧ c ∈ dict_keys rec.
Proof.
  revert seen. induction data as [|r data IH]; intros seen; simpl.
  - split; [auto | intros [?|(? & H & _)]; [done | inversion H]].
  - rewrite IH, elem_of_add_keys. split.
    + intros [[?|?]|(rec & ? & ?)]; [by left | right; exists r | right; exists rec];
        split; try done; by constructor.
    + intros [?|(rec & Hin & ?)]; [by left; left |].
      apply elem_of_cons in Hin as [->|?]; [by left; right | right; eauto].
Qed.

Lemma elem_of_frame_columns c data :
  c ∈ frame_columns data ↔ ∃ rec, rec ∈ data ∧ c ∈ dict_keys rec.
Proof.
  unfold frame_columns. rewrite elem_of_fold_keys.
  split; [intros [H|?]; [inversion H | done] | auto].
Qed.

Lemma NoDup_frame_columns data : NoDup (frame_columns data).
Proof.
  unfold frame_columns. generalize (NoDup_nil_2 (A := string)).
  generalize (@nil string). induction data as [|r data IH]; intros seen Hnd; simpl.
  - done.
  - by apply IH, NoDup_add_keys.
Qed.

(** A column is there exactly when some record has the field. *)
Lemma frame_columns_field c data :
  c ∈ frame_columns data ↔ ∃ rec, rec ∈ data ∧ is_Some (dict_get c rec).
Proof.
  rewrite elem_of_frame_columns. by setoid_rewrite dict_get_is_Some.
Qed.

Lemma cell_at_fmap (f : string → cell number) cols c :
  c ∈ cols → cell_at cols (f <$> cols) c = Some (f c).
Proof.
  induction cols as [|c' cols IH]; simpl; [by intros H; inversion H |].
  intros Hin. destruct (decide (c' = c)) as [->|Hne]; [done |].
  apply IH. apply elem_of_cons in Hin as [?|?]; congruence.
Qed.

Lemma cell_at_is_Some cols row c :
  is_Some (cell_at cols row c) → c ∈ cols.
Proof.
  revert row. induction cols as [|c' cols IH]; intros [|v row]; simpl;
    try (by intros [? ?]).
  destruct (decide (c' = c)) as [->|Hne]; [by left | right; eauto].
Qed.

(** [df[c]] of a frame built from records: the field [c] of each record. *)
Lemma getitem_DataFrame_of c data :
  getitem (DataFrame_of data) c =
  if decide (c ∈ frame_columns data)
  then Returned (field_series data c)
  else Raised (KeyError c).
Proof.
  unfold getitem, DataFrame_of, field_series; simpl. case_decide; [|done].
  f_equal. rewrite <- list_fmap_compose. apply list_fmap_ext.
  intros i rec _. simpl. by rewrite cell_at_fmap.
Qed.

End FrameFacts.

(** ** The three processors *)

Section ProcessorFacts.
Context {number : Type} {numeric : Numeric number}.
Implicit Types (rec : record number) (data : list (record number)).
Implicit Types (cols : list string) (c : string).

Lemma set_cell_fmap (f : string → cell number) cols c v :
  NoDup cols →
  set_cell cols (f <$> cols) c v =
  (fun c' => if decide (c' = c) then v else f c') <$> cols.
Proof.
  induction cols as [|c' cols IH]; csimpl; [done |].
  intros [Hnin Hnd]%NoDup_cons.
  destruct (decide (c' = c)) as [->|Hne].
  - f_equal. apply list_fmap_ext. intros i x Hx.
    rewrite decide_False; [done |].
    intros ->. apply Hnin. by eapply list_elem_of_lookup_2.
  - f_equal. by apply IH.
Qed.

Lemma snoc_fmap (f : string → cell number) cols c v :
  c ∉ cols →
  (f <$> cols) ++ [v] =
  (fun c' => if decide (c' = c) then v else f c') <$> (cols ++ [c]).
Proof.
  intros Hnin. rewrite fmap_app. csimpl. rewrite decide_True by done.
  f_equal. apply list_fmap_ext. intros i x Hx.
  rewrite decide_False; [done |].
  intros ->. apply Hnin. by eapply list_elem_of_lookup_2.
Qed.

(** Assigning to [df[target]] a series computed from the field [source]. *)
Lemma setitem_DataFrame_of data target source (f : cell number → cell number) :
  setitem (DataFrame_of data) target (f <$> field_series data source) =
  {| columns := columns_with data target;
     rows := derived_row target source f data (columns_with data target)
               <$> data |}.
Proof.
  unfold setitem, columns_with, field_series, DataFrame_of; simpl.
  rewrite <- list_fmap_compose.
  case_decide as Hin; f_equal;
    rewrite zip_with_fmap_l, zip_with_fmap_r, zip_with_diag;
    apply list_fmap_ext; intros i rec _; simpl.
  - apply set_cell_fmap, NoDup_frame_columns.
  - by apply snoc_fmap.
Qed.

Lemma row_per_record_fmap data cols (row_of : record number → list (cell number)) :
  row_per_record data {| columns := cols; rows := row_of <$> data |} row_of.
Proof.
  split; simpl.
  - apply length_fmap.
  - intros i rec Hi. by rewrite list_lookup_fmap, Hi.
Qed.

End ProcessorFacts.

Section ProcessFacts.
Context {number : Type} {numeric : Numeric number}.
Implicit Types (data : list (record number)).

Lemma to_numeric_fmap (series : list (cell number)) :
  to_numeric series = numeric_cell series <$> series.
Proof.
  unfold to_numeric, numeric_cell. destruct (forallb is_bool_cell series).
  - by rewrite list_fmap_id.
  - done.
Qed.

Lemma copy_column_processed data target source :
  (name ← getitem (DataFrame_of data) source;
   mret (setitem (DataFrame_of data) target name)) =
  processed data target source id.
Proof.
  unfold processed. rewrite getitem_DataFrame_of. case_decide; [|done].
  change (Returned (setitem (DataFrame_of data) target (field_series data source)) =
          Returned {| columns := columns_with data target;
                      rows := derived_row target source id data
                                (columns_with data target) <$> data |}).
  by rewrite <- setitem_DataFrame_of, list_fmap_id.
Qed.

Lemma numeric_column_processed data :
  (population ← getitem (DataFrame_of data) "population";
   mret (setitem (DataFrame_of data) "population" (to_numeric population))) =
  processed data "population" "population"
    (numeric_cell (field_series data "population")).
Proof.
  unfold processed. rewrite getitem_DataFrame_of. case_decide; [|done].
  change (Returned (setitem (DataFrame_of data) "population"
                      (to_numeric (field_series data "population"))) =
          Returned {| columns := columns_with data "population";
                      rows := derived_row "population" "population"
                                (numeric_cell (field_series data "population"))
                                data (columns_with data "population")
                                <$> data |}).
  by rewrite <- setitem_DataFrame_of, to_numeric_fmap.
Qed.

Lemma swapi_people_process data :
  SwapiManager.process SwapiManager.PeopleProcessor data =
  processed data "full_name" "name" id.
Proof. apply copy_column_processed. Qed.

Lemma swapi_films_process data :
  SwapiManager.process SwapiManager.FilmsProcessor data =
  processed data "film_titles" "title" id.
Proof. apply copy_column_processed. Qed.

Lemma swapi_planets_process data :
  SwapiManager.process SwapiManager.PlanetsProcessor data =
  processed data "population" "population"
    (numeric_cell (field_series data "population")).
Proof. apply numeric_column_processed. Qed.

Lemma main_people_process data :
  Main.process Main.PeopleProcessor data =
  processed data "full_name" "name" id.
Proof. apply copy_column_processed. Qed.

Lemma main_films_process data :
  Main.process Main.FilmsProcessor data =
  processed data "film_title" "title" id.
Proof. apply copy_column_processed. Qed.

Lemma main_planets_process data :
  Main.process Main.PlanetsProcessor data =
  processed data "population" "population"
    (numeric_cell (field_series data "population")).
Proof. apply numeric_column_processed. Qed.

(** A processed frame has one row per record, in order. *)
Lemma processed_rows data target source f df :
  processed data target source f = Returned df →
  row_per_record data df (derived_row target source f data (columns df)).
Proof.
  unfold processed. case_decide; [|done]. intros [= <-]. simpl.
  apply row_per_record_fmap.
Qed.

End ProcessFacts.

(** * Properties of the two programs *)

(** ** Retrieval *)

Section Retrieval.
Context {number : Type} {numeric : Numeric number}.
Implicit Types (srv : server number) (url : option string).

Lemma fetch_pages_chain srv url pages :
  chain srv url pages →
  ∀ fuel all_data, length pages ≤ fuel →
    SwapiManager.fetch_pages fuel srv url all_data =
    Some (Returned (all_data ++ concat pages)).
Proof.
  induction 1 as [url Hurl|u data rs pages Hu Hsrv Hrs _ IH];
    intros fuel all_data Hfuel.
  - destruct fuel; simpl; unfold SwapiManager.true_url; rewrite Hurl;
      by rewrite app_nil_r.
  - destruct fuel as [|fuel]; simpl in Hfuel; [lia |].
    simpl. unfold SwapiManager.true_url. rewrite Hu, Hsrv, Hrs.
    rewrite IH by lia. by rewrite <- app_assoc.
Qed.

(** C1 (as amended).  In [swapi_manager.py], when the pages from the first
    URL form a chain of successful pages (each request is answered, without
    an error status, by a JSON object with results), [fetch_json] returns,
    given fuel for every page, the records of all pages: page 1 first, each
    page in its own order.  A [next] that is the empty string ends the chain
    like an absent or null one.  In [main.py], [fetch_json] requests one page
    and returns its records, whatever its [next] field is. *)
Theorem fetch_json_pages srv :
  (∀ (self : SwapiManager.SWAPIClient) endpoint pages fuel,
     chain srv (Some (SwapiManager.base_url self +:+ endpoint)) pages →
     length pages ≤ fuel →
     SwapiManager.fetch_json fuel srv self endpoint =
     Some (Returned (concat pages))) ∧
  (∀ (self : Main.SWAPIClient) endpoint data rs,
     get_page srv (Main.base_url self +:+ "/" +:+ endpoint +:+ "/") =
       Returned data →
     results data = Some rs →
     Main.fetch_json srv self endpoint = Returned rs).
Proof.
  split.
  - intros self endpoint pages fuel Hchain Hfuel.
    unfold SwapiManager.fetch_json.
    by rewrite (fetch_pages_chain _ _ _ Hchain).
  - intros self endpoint data rs Hsrv Hrs.
    unfold Main.fetch_json. by rewrite Hsrv, Hrs.
Qed.

End Retrieval.

Lemma two_pages_chain :
  chain Sample.two_pages (Some "api/people")
    [[Sample.luke; Sample.leia]; [Sample.han]].
Proof.
  eapply chain_page; [reflexivity | reflexivity | reflexivity |].
  eapply chain_page; [reflexivity | reflexivity | reflexivity |].
  apply chain_end. reflexivity.
Defined.

Lemma fetch_json_pages_witness :
  SwapiManager.fetch_json 2 Sample.two_pages (SwapiManager.Client "api/") "people" =
  Some (Returned [Sample.luke; Sample.leia; Sample.han]) ∧
  Main.fetch_json Sample.two_pages (Main.Client "api") "people" =
  Returned [Sample.luke; Sample.leia].
Proof.
  split.
  - apply (proj1 (fetch_json_pages Sample.two_pages) (SwapiManager.Client "api/")
             "people" [[Sample.luke; Sample.leia]; [Sample.han]] 2).
    + exact two_pages_chain.
    + simpl. lia.
  - apply (proj2 (fetch_json_pages Sample.two_pages) (Main.Client "api") "people"
             (Page (Some [Sample.luke; Sample.leia]) (NextUrl "api/people?page=2"))).
    + reflexivity.
    + reflexivity.
Defined.

(** C1 fails for [main.py]: the first page links to a second one, and
    [fetch_json] returns the records of the first page only. *)
Lemma fetch_json_pages_counterexample :
  chain Sample.two_pages (Some "api/people/")
    [[Sample.luke; Sample.leia]; [Sample.han]] ∧
  Main.fetch_json Sample.two_pages (Main.Client "api") "people" =
  Returned [Sample.luke; Sample.leia] ∧
  [Sample.luke; Sample.leia] ≠
  concat [[Sample.luke; Sample.leia]; [Sample.han]].
Proof.
  split_and!.
  - eapply chain_page; [reflexivity | reflexivity | reflexivity |].
    eapply chain_page; [reflexivity | reflexivity | reflexivity |].
    apply chain_end. reflexivity.
  - reflexivity.
  - discriminate.
Qed.

(** ** Failures while fetching *)

Section Failures.
Context {number : Type} {numeric : Numeric number}.
Implicit Types (srv : server number) (url : option string).
Implicit Types (self : SwapiManager.SWAPIDataManager number).

Lemma get_page_error srv u (response : response number) :
  srv u = Returned response →
  (400 ≤ status_code response < 600)%Z →
  get_page srv u = Raised (HTTPError (status_code response) u).
Proof.
  intros Hsrv Hstatus. unfold get_page, raise_for_status. rewrite Hsrv. simpl.
  replace (400 <=? status_code response)%Z with true
    by (symmetry; apply Z.leb_le; lia).
  replace (status_code response <? 600)%Z with true
    by (symmetry; apply Z.ltb_lt; lia).
  done.
Qed.

Lemma fetch_pages_breaks srv url status bad :
  breaks srv url status bad →
  ∃ n, ∀ fuel all_data,
    SwapiManager.fetch_pages fuel srv url all_data =
    if decide (n ≤ fuel) then Some (Raised (HTTPError status bad)) else None.
Proof.
  induction 1 as [u response Hu Hsrv Hstatus
                 |u data rs status bad Hu Hsrv Hrs _ [n IH]].
  - exists 1. intros [|fuel] all_data; simpl; unfold SwapiManager.true_url;
      rewrite Hu; [done |]. by rewrite (get_page_error _ _ _ Hsrv Hstatus).
  - exists (S n). intros [|fuel] all_data; simpl; unfold SwapiManager.true_url;
      rewrite Hu; [done |]. rewrite Hsrv, Hrs, IH.
    repeat case_decide; done || lia.
Qed.

(** The status a retrieval breaks with is an error code. *)
Lemma breaks_status srv url status bad :
  breaks srv url status bad → (400 ≤ status < 600)%Z.
Proof. by induction 1. Qed.

(** [fetch_entity] of [swapi_manager.py] passes on the error of a failed
    retrieval and keeps the manager. *)
Lemma swapi_fetch_entity_raised fuel srv self endpoint e :
  SwapiManager.fetch_json fuel srv (SwapiManager.client self) endpoint =
  Some (Raised e) →
  SwapiManager.fetch_entity fuel srv self endpoint = Some (self, Raised e).
Proof. unfold SwapiManager.fetch_entity. by intros ->. Qed.

(** In [main.py] the one request of a registered name that is answered with
    an error status makes [fetch_entity] raise and keep the manager. *)
Lemma main_fetch_entity_raised srv (self : Main.SWAPIDataManager number)
  endpoint processor (response : response number) :
  Main.processors self !! endpoint = Some processor →
  srv (Main.base_url (Main.client self) +:+ "/" +:+ endpoint +:+ "/") =
    Returned response →
  (400 ≤ status_code response < 600)%Z →
  Main.fetch_entity srv self endpoint =
  (self, Raised (HTTPError (status_code response)
                   (Main.base_url (Main.client self) +:+ "/" +:+ endpoint +:+ "/"))).
Proof.
  intros Hproc Hsrv Hstatus. unfold Main.fetch_entity, Main.fetch_json.
  by rewrite Hproc, (get_page_error _ _ _ Hsrv Hstatus).
Qed.

(** C7 (as amended).  When a page request of the retrieval is answered with
    an error status, which is one from 400 to 599, [fetch_json] of
    [swapi_manager.py] raises [HTTPError] for that request as soon as the
    fuel reaches it and never returns a sequence, and [fetch_entity] raises
    the same error and leaves the manager, with its store, as it was. *)
Theorem page_failure_aborts srv self endpoint status bad :
  breaks srv
    (Some (SwapiManager.base_url (SwapiManager.client self) +:+ endpoint))
    status bad →
  (400 ≤ status < 600)%Z ∧
  (∃ n, ∀ fuel, n ≤ fuel →
     SwapiManager.fetch_json fuel srv (SwapiManager.client self) endpoint =
     Some (Raised (HTTPError status bad)) ∧
     SwapiManager.fetch_entity fuel srv self endpoint =
     Some (self, Raised (HTTPError status bad))) ∧
  (∀ fuel json_data,
     SwapiManager.fetch_json fuel srv (SwapiManager.client self) endpoint ≠
     Some (Returned json_data)) ∧
  (∀ fuel self' outcome,
     SwapiManager.fetch_entity fuel srv self endpoint = Some (self', outcome) →
     self' = self ∧ outcome = Raised (HTTPError status bad)).
Proof.
  intros Hbreaks. pose proof (breaks_status _ _ _ _ Hbreaks) as Hstatus.
  apply fetch_pages_breaks in Hbreaks as [n Hn]. split_and!.
  - lia.
  - lia.
  - exists n. intros fuel Hfuel.
    assert (SwapiManager.fetch_json fuel srv (SwapiManager.client self) endpoint =
            Some (Raised (HTTPError status bad))) as Hjson.
    { unfold SwapiManager.fetch_json. rewrite Hn. by rewrite decide_True. }
    split; [done | by apply swapi_fetch_entity_raised].
  - intros fuel json_data. unfold SwapiManager.fetch_json. rewrite Hn.
    by case_decide.
  - intros fuel self' outcome. unfold SwapiManager.fetch_entity, SwapiManager.fetch_json.
    rewrite Hn. case_decide; [|done]. by intros [= <- <-].
Qed.

(** C3 (as amended).  For a name without a registered processor,
    [fetch_entity] of [main.py] raises [ValueError] without requesting
    anything; [fetch_entity] of [swapi_manager.py] fetches the pages first,
    passes on an error of the retrieval, and otherwise returns without
    raising.  Neither changes the manager. *)
Theorem fetch_entity_unregistered srv endpoint :
  (∀ self : Main.SWAPIDataManager number,
     Main.processors self !! endpoint = None →
     ∃ msg, Main.fetch_entity srv self endpoint = (self, Raised (ValueError msg))) ∧
  (∀ self fuel,
     SwapiManager.processors self !! endpoint = None →
     SwapiManager.fetch_entity fuel srv self endpoint =
     match SwapiManager.fetch_json fuel srv (SwapiManager.client self) endpoint with
     | None => None
     | Some (Raised e) => Some (self, Raised e)
     | Some (Returned _) => Some (self, Returned ())
     end).
Proof.
  split.
  - intros self Hnone. unfold Main.fetch_entity. rewrite Hnone. eauto.
  - intros self fuel Hnone. unfold SwapiManager.fetch_entity. rewrite Hnone.
    by repeat case_match.
Qed.

End Failures.

Lemma page_failure_aborts_witness :
  (400 ≤ 500 < 600)%Z ∧
  (∃ n, ∀ fuel, n ≤ fuel →
     SwapiManager.fetch_json fuel Sample.broken_second_page
       (SwapiManager.client Sample.swapi_manager) "people" =
     Some (Raised (HTTPError 500 "api/people?page=2")) ∧
     SwapiManager.fetch_entity fuel Sample.broken_second_page
       Sample.swapi_manager "people" =
     Some (Sample.swapi_manager, Raised (HTTPError 500 "api/people?page=2"))) ∧
  (∀ fuel json_data,
     SwapiManager.fetch_json fuel Sample.broken_second_page
       (SwapiManager.client Sample.swapi_manager) "people" ≠
     Some (Returned json_data)) ∧
  (∀ fuel self' outcome,
     SwapiManager.fetch_entity fuel Sample.broken_second_page
       Sample.swapi_manager "people" = Some (self', outcome) →
     self' = Sample.swapi_manager ∧
     outcome = Raised (HTTPError 500 "api/people?page=2")).
Proof.
  apply (page_failure_aborts Sample.broken_second_page Sample.swapi_manager
           "people" 500 "api/people?page=2").
  eapply breaks_later; [reflexivity | reflexivity | reflexivity |].
  apply (breaks_here Sample.broken_second_page "api/people?page=2"
           (Response 500 None)); [reflexivity | reflexivity | simpl; lia].
Defined.

(** C7 fails for a status that is no success and no error code: every
    request is answered with 300 and a page, [raise_for_status] lets it
    pass, and the page is fetched and stored like any other. *)
Lemma page_failure_aborts_counterexample :
  Sample.multiple_choices "api/people" =
    Returned (Response 300 (Some (Page (Some [Sample.luke]) NextNull))) ∧
  SwapiManager.fetch_json 1 Sample.multiple_choices
    (SwapiManager.client Sample.swapi_manager) "people" =
    Some (Returned [Sample.luke]) ∧
  SwapiManager.fetch_entity 1 Sample.multiple_choices Sample.swapi_manager "people" =
    Some (SwapiManager.set_data Sample.swapi_manager
            [("people", Sample.luke_frame)], Returned ()).
Proof. split_and!; reflexivity. Qed.

Lemma fetch_entity_unregistered_witness :
  (∃ msg, Main.fetch_entity Sample.two_pages Sample.main_manager "planets" =
          (Sample.main_manager, Raised (ValueError msg))) ∧
  SwapiManager.fetch_entity 1 Sample.two_pages Sample.swapi_manager "planets" =
  Some (Sample.swapi_manager, Raised (HTTPError 404 "api/planets")).
Proof.
  split.
  - apply (proj1 (fetch_entity_unregistered Sample.two_pages "planets")).
    reflexivity.
  - rewrite (proj2 (fetch_entity_unregistered Sample.two_pages "planets")
               Sample.swapi_manager 1); reflexivity.
Defined.

(** C3 fails for [swapi_manager.py]: no processor is registered for
    ["people"] in a new manager, the pages are fetched, and [fetch_entity]
    returns without raising. *)
Lemma fetch_entity_unregistered_counterexample :
  SwapiManager.processors
    (SwapiManager.init (number := Decimal.small) (SwapiManager.Client "api/")) !! "people" = None ∧
  SwapiManager.fetch_entity 2 Sample.two_pages
    (SwapiManager.init (SwapiManager.Client "api/")) "people" =
  Some (SwapiManager.init (SwapiManager.Client "api/"), Returned ()).
Proof. split; reflexivity. Qed.

(** ** Dropping columns *)

Section Dropping.
Context {number : Type} {numeric : Numeric number}.
Implicit Types (df : DataFrame number) (row : list (cell number)).
Implicit Types (cols labels : list string) (c : string).
Implicit Types (self : SwapiManager.SWAPIDataManager number).

Lemma cell_at_keep_cells cols labels row c :
  c ∉ labels →
  cell_at (filter (fun c' => c' ∉ labels) cols) (keep_cells cols labels row) c =
  cell_at cols row c.
Proof.
  intros Hc. revert row. induction cols as [|c' cols IH]; intros row.
  - by destruct row.
  - rewrite filter_cons. destruct row as [|v row]; simpl.
    + case_decide; [done | by destruct (filter _ cols)].
    + destruct (decide (c' ∈ labels)) as [Hin|Hnin].
      * rewrite decide_False by (by intros ?).
        rewrite IH. rewrite decide_False; [done | by intros ->].
      * rewrite decide_True by done. simpl.
        destruct (decide (c' = c)); [done | apply IH].
Qed.

Lemma cell_at_dropped cols labels row c :
  c ∈ labels →
  cell_at (filter (fun c' => c' ∉ labels) cols) (keep_cells cols labels row) c =
  None.
Proof.
  intros Hc. apply eq_None_not_Some. intros Hsome%cell_at_is_Some.
  apply list_elem_of_filter in Hsome as [? _]. done.
Qed.

(** [drop_columns] returns exactly when every label is a column. *)
Lemma drop_columns_present df labels :
  (∀ c, c ∈ labels → c ∈ columns df) →
  drop_columns df labels =
  Returned {| columns := filter (fun c => c ∉ labels) (columns df);
              rows := keep_cells (columns df) labels <$> rows df |}.
Proof.
  intros Hall. unfold drop_columns.
  destruct (filter _ labels) as [|l ls] eqn:Hf; [done |].
  assert (l ∈ filter (fun l => l ∉ columns df) labels) as Hl
    by (rewrite Hf; by left).
  apply list_elem_of_filter in Hl as [Hnin Hin]. by apply Hall in Hin.
Qed.

Lemma drop_columns_missing df labels c :
  c ∈ labels → c ∉ columns df →
  ∃ missing, drop_columns df labels = Raised (KeyError_not_in_axis missing) ∧
             c ∈ missing.
Proof.
  intros Hin Hnin. unfold drop_columns.
  assert (c ∈ filter (fun l => l ∉ columns df) labels) as Hc
    by by apply list_elem_of_filter.
  destruct (filter _ labels) as [|l ls]; [by inversion Hc | eauto].
Qed.


Lemma drop_inplace_returned df labels obj :
  drop_columns df labels = Returned obj →
  drop_inplace df labels = (obj, Returned ()).
Proof. unfold drop_inplace. by intros ->. Qed.

(** Putting the table a name already has back under that name changes
    nothing in the manager. *)
Lemma set_data_same self endpoint df :
  dict_get endpoint (SwapiManager.data self) = Some df →
  SwapiManager.set_data self (dict_set endpoint df (SwapiManager.data self)) =
  self.
Proof.
  intros Hget. unfold SwapiManager.set_data.
  rewrite (dict_set_same _ _ _ Hget). by destruct self.
Qed.

(** C2 (as amended).  For a stored table, [apply_filter] with columns that
    are all in the table removes exactly these from the column labels and
    from every row, keeps the cells of the other columns and the tables of
    the other names; with a column that is not in the table it raises
    [KeyError]. *)
Theorem apply_filter_drops self endpoint columns_to_drop df :
  dict_get endpoint (SwapiManager.data self) = Some df →
  ((∀ c, c ∈ columns_to_drop → c ∈ columns df) →
   ∃ self' df',
     SwapiManager.apply_filter self endpoint columns_to_drop =
       (self', Returned ()) ∧
     dict_get endpoint (SwapiManager.data self') = Some df' ∧
     (∀ other, other ≠ endpoint →
        dict_get other (SwapiManager.data self') =
        dict_get other (SwapiManager.data self)) ∧
     columns df' = filter (fun c => c ∉ columns_to_drop) (columns df) ∧
     length (rows df') = length (rows df) ∧
     ∀ i row, rows df !! i = Some row →
       ∃ row', rows df' !! i = Some row' ∧
         (∀ c, c ∉ columns_to_drop →
            cell_at (columns df') row' c = cell_at (columns df) row c) ∧
         (∀ c, c ∈ columns_to_drop → cell_at (columns df') row' c = None)) ∧
  (∀ c, c ∈ columns_to_drop → c ∉ columns df →
   ∃ missing,
     SwapiManager.apply_filter self endpoint columns_to_drop =
       (self, Raised (KeyError_not_in_axis missing)) ∧
     c ∈ missing).
Proof.
  intros Hget. split.
  - intros Hall. unfold SwapiManager.apply_filter.
    rewrite Hget, (drop_inplace_returned _ _ _ (drop_columns_present _ _ Hall)).
    set (df' := {| columns := filter (fun c => c ∉ columns_to_drop) (columns df);
                   rows := keep_cells (columns df) columns_to_drop <$> rows df |}).
    exists (SwapiManager.set_data self
              (dict_set endpoint df' (SwapiManager.data self))), df'.
    split_and!; [done | | | done | | ]; simpl.
    + apply dict_get_set_eq.
    + intros other Hne. by apply dict_get_set_ne.
    + apply length_fmap.
    + intros i row Hrow. eexists. split_and!.
      * by rewrite list_lookup_fmap, Hrow.
      * intros c Hc. by apply cell_at_keep_cells.
      * intros c Hc. by apply cell_at_dropped.
  - intros c Hin Hnin. unfold SwapiManager.apply_filter. rewrite Hget.
    destruct (drop_columns_missing df columns_to_drop c Hin Hnin)
      as (missing & Hdrop & Hc).
    exists missing. split; [| done]. unfold drop_inplace. rewrite Hdrop.
    by rewrite (set_data_same _ _ _ Hget).
Qed.


End Dropping.

Lemma apply_filter_drops_witness :
  (∃ self' df',
     SwapiManager.apply_filter Sample.abc_manager "t" ["b"] = (self', Returned ()) ∧
     dict_get "t" (SwapiManager.data self') = Some df' ∧
     columns df' = ["a"; "c"] ∧
     rows df' = [[Val (JNum (Decimal.Small 1 I)); Val (JNum (Decimal.Small 3 I))];
      [Val (JNum (Decimal.Small 4 I)); Val (JNum (Decimal.Small 6 I))]]) ∧
  (∃ missing,
     SwapiManager.apply_filter Sample.abc_manager "t" ["b"; "z"] =
       (Sample.abc_manager, Raised (KeyError_not_in_axis missing)) ∧
     "z" ∈ missing).
Proof.
  pose proof (apply_filter_drops Sample.abc_manager "t" ["b"] Sample.abc eq_refl)
    as [Hok _].
  pose proof (apply_filter_drops Sample.abc_manager "t" ["b"; "z"] Sample.abc eq_refl)
    as [_ Hbad].
  split.
  - destruct Hok as (self' & df' & Hrun & Hget & _).
    + intros c ->%list_elem_of_singleton. by right; left.
    + exists self', df'. split_and!; [done.. | |];
        vm_compute in Hrun; injection Hrun as <-;
        vm_compute in Hget; by injection Hget as <-.
  - apply (Hbad "z").
    + by right; left.
    + vm_compute. intros H. repeat (inversion H as [|? ? ? H']; clear H; rename H' into H).
Defined.

(** C2 fails on its own example: dropping b and z from a table with the
    columns a, b, c raises [KeyError] for z and leaves the table as it is. *)
Lemma apply_filter_drops_counterexample :
  SwapiManager.apply_filter Sample.abc_manager "t" ["b"; "z"] =
  (Sample.abc_manager, Raised (KeyError_not_in_axis ["z"])).
Proof. reflexivity. Qed.


(** ** The transforms *)

Section Transforms.
Context {number : Type} {numeric : Numeric number}.
Implicit Types (rec : record number) (data : list (record number)).
Implicit Types (df : DataFrame number) (c : string).

Lemma elem_of_columns_with data target c :
  c ∈ columns_with data target ↔ c ∈ frame_columns data ∨ c = target.
Proof.
  unfold columns_with. case_decide.
  - split; [auto | intros [?| ->]; done].
  - by rewrite elem_of_app, list_elem_of_singleton.
Qed.

(** The cells of a processed frame. *)
Lemma processed_cells data target source f df :
  processed data target source f = Returned df →
  columns df = columns_with data target ∧
  length (rows df) = length data ∧
  ∀ i rec, data !! i = Some rec →
    ∃ row, rows df !! i = Some row ∧
      cell_at (columns df) row target = Some (f (record_cell data rec source)) ∧
      ∀ c, c ≠ target → c ∈ frame_columns data →
        cell_at (columns df) row c = Some (record_cell data rec c).
Proof.
  unfold processed. case_decide; [|done]. intros [= <-]. simpl.
  split_and!; [done | apply length_fmap |].
  intros i rec Hi. eexists. split_and!.
  - by rewrite list_lookup_fmap, Hi.
  - unfold derived_row. rewrite cell_at_fmap.
    + by rewrite decide_True.
    + apply elem_of_columns_with. by right.
  - intros c Hne Hc. unfold derived_row. rewrite cell_at_fmap.
    + by rewrite decide_False.
    + apply elem_of_columns_with. by left.
Qed.

Lemma processed_columns data target source f df :
  processed data target source f = Returned df →
  columns df = columns_with data target.
Proof. unfold processed. case_decide; [|done]. by intros [= <-]. Qed.

Lemma processed_returns data target source f :
  (∃ rec, rec ∈ data ∧ is_Some (dict_get source rec)) →
  ∃ df, processed data target source f = Returned df.
Proof.
  intros Hsome%frame_columns_field. unfold processed.
  rewrite decide_True by done. eauto.
Qed.

Lemma processed_raises data target source f :
  (∀ rec, rec ∈ data → dict_get source rec = None) →
  processed data target source f = Raised (KeyError source).
Proof.
  intros Hnone. unfold processed. rewrite decide_False; [done |].
  intros (rec & Hin & Hsome)%frame_columns_field.
  rewrite (Hnone rec Hin) in Hsome. by destruct Hsome.
Qed.

(** C6.  Whenever a processor of either file returns a frame, its columns
    are the field names of the records, in the order in which they are first
    seen, followed by the derived column unless that is a field name
    already; the frame has as many rows as there are records, and row [i] is
    made from record [i]: under each column what the frame stores for the
    field of that name, except that the derived column holds the cell of the
    [name], of the [title] or the converted [population] of that record. *)
Theorem transforms_keep_rows data df :
  (SwapiManager.process SwapiManager.PeopleProcessor data = Returned df ∨
   Main.process Main.PeopleProcessor data = Returned df →
   columns df = columns_with data "full_name" ∧
   row_per_record data df (derived_row "full_name" "name" id data (columns df))) ∧
  (SwapiManager.process SwapiManager.PlanetsProcessor data = Returned df ∨
   Main.process Main.PlanetsProcessor data = Returned df →
   columns df = columns_with data "population" ∧
   row_per_record data df
     (derived_row "population" "population"
        (numeric_cell (field_series data "population")) data (columns df))) ∧
  (SwapiManager.process SwapiManager.FilmsProcessor data = Returned df →
   columns df = columns_with data "film_titles" ∧
   row_per_record data df
     (derived_row "film_titles" "title" id data (columns df))) ∧
  (Main.process Main.FilmsProcessor data = Returned df →
   columns df = columns_with data "film_title" ∧
   row_per_record data df
     (derived_row "film_title" "title" id data (columns df))).
Proof.
  rewrite swapi_people_process, main_people_process, swapi_planets_process,
    main_planets_process, swapi_films_process, main_films_process.
  split_and!; try intros [?|?]; try intros ?;
    (split; [by eapply processed_columns | by apply processed_rows]).
Qed.

(** What [to_numeric] makes of the cell the frame stores for a field [v] of
    the column [c]. *)
Lemma numeric_cell_stored data rec c v :
  rec ∈ data → dict_get c rec = Some v →
  numeric_cell (field_series data c) (stored_value (raw_series data c) v) =
  match v with
  | JStr s =>
      match parse_number s with
      | Some n => Val (JNum (numeric_number (field_series data c) n))
      | None => NaN
      end
  | JNum n =>
      Val (JNum (numeric_number (field_series data c)
                   (frame_number (raw_series data c) n)))
  | JBool b =>
      if forallb is_bool_cell (field_series data c) then Val (JBool b)
      else Val (JNum (numeric_number (field_series data c) (number_of_bool b)))
  | _ => NaN
  end.
Proof.
  intros Hin Hv.
  assert (stored_value (raw_series data c) v ∈ field_series data c) as Hcell.
  { unfold field_series. apply list_elem_of_fmap. exists rec.
    split; [| done]. unfold record_cell. by rewrite Hv. }
  unfold numeric_cell.
  destruct (forallb is_bool_cell (field_series data c)) eqn:Hall.
  - assert (is_bool_cell (stored_value (raw_series data c) v) = true) as Hb.
    { rewrite forallb_forall in Hall. apply Hall. by apply list_elem_of_In. }
    by destruct v.
  - by destruct v.
Qed.

(** C4 (as amended).  For a sequence that is not empty and in which every
    record has a [population], the Planet processor of either file returns a
    frame with one row per record.  The [population] cell of a row is:
    for a string, the number it reads as, as the converted column stores it,
    and a missing cell when the string does not read as a number; for a
    number, that number as the column stores it; for [true] or [false], the
    value itself when the column holds nothing else and its number
    otherwise; missing for a null, a list or an object.  So a string that
    reads as a number every dtype holds exactly gives that number.  For the
    fields "1000", "unknown" and "42", when the first and the last parse as
    numbers and the second does not, the cells are these two numbers, as the
    column stores them, with a missing cell between them: the two numbers
    themselves when every dtype holds them exactly. *)
Theorem planet_population :
  (∀ data, data ≠ [] →
     (∀ rec, rec ∈ data → is_Some (dict_get "population" rec)) →
     ∃ df,
       SwapiManager.process SwapiManager.PlanetsProcessor data = Returned df ∧
       Main.process Main.PlanetsProcessor data = Returned df ∧
       length (rows df) = length data ∧
       ∀ i rec v, data !! i = Some rec → dict_get "population" rec = Some v →
         ∃ row out, rows df !! i = Some row ∧
           cell_at (columns df) row "population" = Some out ∧
           out =
           match v with
           | JStr s =>
               match parse_number s with
               | Some n =>
                   Val (JNum (numeric_number (field_series data "population") n))
               | None => NaN
               end
           | JNum n =>
               Val (JNum (numeric_number (field_series data "population")
                            (frame_number (raw_series data "population") n)))
           | JBool b =>
               if forallb is_bool_cell (field_series data "population")
               then Val (JBool b)
               else Val (JNum (numeric_number (field_series data "population")
                                 (number_of_bool b)))
           | _ => NaN
           end ∧
           (∀ s, v = JStr s → parse_number s = None → out = NaN) ∧
           (∀ s n, v = JStr s → parse_number s = Some n → exact n →
                   out = Val (JNum n))) ∧
  (∀ a b, parse_number "1000" = Some a → parse_number "unknown" = None →
     parse_number "42" = Some b →
     let data := [[("population", JStr "1000")]; [("population", JStr "unknown")];
                  [("population", JStr "42")]] in
     let series := [Val (JStr "1000"); Val (JStr "unknown"); Val (JStr "42")] in
     let df := {| columns := ["population"];
                  rows := [[Val (JNum (numeric_number series a))]; [NaN];
                           [Val (JNum (numeric_number series b))]] |} in
     SwapiManager.process SwapiManager.PlanetsProcessor data = Returned df ∧
     Main.process Main.PlanetsProcessor data = Returned df ∧
     (exact a → exact b →
      df = {| columns := ["population"];
              rows := [[Val (JNum a)]; [NaN]; [Val (JNum b)]] |})).
Proof.
  split.
  - intros data Hne Hall.
    rewrite swapi_planets_process, main_planets_process.
    destruct (processed_returns data "population" "population"
                (numeric_cell (field_series data "population"))) as [df Hdf].
    { destruct data as [|rec data]; [done |].
      exists rec. split; [by left | apply Hall; by left]. }
    exists df. split_and!; [done.. | |];
      destruct (processed_cells _ _ _ _ _ Hdf) as (Hcols & Hlen & Hrows); [done |].
    intros i rec v Hi Hv. destruct (Hrows i rec Hi) as (row & Hrow & Hcell & _).
    assert (rec ∈ data) as Hrec by (by eapply list_elem_of_lookup_2).
    unfold record_cell in Hcell. rewrite Hv in Hcell.
    rewrite (numeric_cell_stored data rec "population" v Hrec Hv) in Hcell.
    eexists row, _. split_and!; [done | apply Hcell | done | |].
    + intros s -> Hparse. by rewrite Hparse.
    + intros s n -> Hparse Hexact. rewrite Hparse.
      by rewrite numeric_number_exact.
  - intros a b Ha Hunknown Hb data series df. subst data series df.
    rewrite swapi_planets_process, main_planets_process.
    split_and!; [| | intros Hexa Hexb; by rewrite !numeric_number_exact].
    all: destruct numeric as [parse of_bool stored converted is_exact ? ?];
      simpl in Ha, Hunknown, Hb; vm_compute; by rewrite Ha, Hunknown, Hb.
Qed.

(** C5 (as amended).  When some record has a [name], the Person processor
    of either file returns a frame with one row per record and a column
    [full_name]: in the row of a record every field other than [full_name]
    stands under its name, a string, [true], [false], a list or an object
    as it is, a number as the column stores it (as it is when every dtype
    holds it exactly) and a null as a missing cell; [full_name] holds the
    same as [name], which is missing for a record without a name.  When no record has a [name], so also for the
    empty sequence, the processor raises [KeyError]. *)
Theorem person_full_name data :
  ((∃ rec, rec ∈ data ∧ is_Some (dict_get "name" rec)) →
   ∃ df,
     SwapiManager.process SwapiManager.PeopleProcessor data = Returned df ∧
     Main.process Main.PeopleProcessor data = Returned df ∧
     "full_name" ∈ columns df ∧
     length (rows df) = length data ∧
     ∀ i rec, data !! i = Some rec →
       ∃ row, rows df !! i = Some row ∧
         (∀ k v, k ≠ "full_name" → dict_get k rec = Some v →
            cell_at (columns df) row k =
            Some match v with
                 | JNull => NaN
                 | JNum n => Val (JNum (frame_number (raw_series data k) n))
                 | _ => Val v
                 end) ∧
         (∀ k n, k ≠ "full_name" → dict_get k rec = Some (JNum n) → exact n →
            cell_at (columns df) row k = Some (Val (JNum n))) ∧
         cell_at (columns df) row "full_name" =
           Some (record_cell data rec "name") ∧
         cell_at (columns df) row "full_name" = cell_at (columns df) row "name") ∧
  ((∀ rec, rec ∈ data → dict_get "name" rec = None) →
   SwapiManager.process SwapiManager.PeopleProcessor data = Raised (KeyError "name") ∧
   Main.process Main.PeopleProcessor data = Raised (KeyError "name")).
Proof.
  rewrite swapi_people_process, main_people_process. split.
  - intros Hsome.
    destruct (processed_returns data "full_name" "name" id Hsome) as [df Hdf].
    destruct (processed_cells _ _ _ _ _ Hdf) as (Hcols & Hlen & Hrows).
    exists df. split_and!; [done.. | | done |].
    { rewrite Hcols. apply elem_of_columns_with. by right. }
    intros i rec Hi. destruct (Hrows i rec Hi) as (row & Hrow & Hfull & Hother).
    assert (∀ k v, k ≠ "full_name" → dict_get k rec = Some v →
              cell_at (columns df) row k =
              Some (stored_value (raw_series data k) v)) as Hfield.
    { intros k v Hk Hv. rewrite (Hother k Hk).
      - unfold record_cell. by rewrite Hv.
      - apply frame_columns_field. exists rec.
        split; [by eapply list_elem_of_lookup_2 | by rewrite Hv]. }
    exists row. split_and!; [done | | | done |].
    + intros k v Hk Hv. by rewrite (Hfield k v Hk Hv).
    + intros k n Hk Hv Hexact. rewrite (Hfield k _ Hk Hv). simpl.
      by rewrite frame_number_exact.
    + rewrite Hfull, (Hother "name"); [done.. |].
      by apply frame_columns_field.
  - intros Hnone. by rewrite processed_raises.
Qed.

End Transforms.

Lemma transforms_keep_rows_witness :
  columns Sample.luke_leia = ["name"; "height"; "full_name"] ∧
  row_per_record [Sample.luke; Sample.leia] Sample.luke_leia
    (derived_row "full_name" "name" id [Sample.luke; Sample.leia]
       (columns Sample.luke_leia)).
Proof.
  apply (proj1 (transforms_keep_rows [Sample.luke; Sample.leia] Sample.luke_leia)).
  left. reflexivity.
Defined.

Lemma planet_population_witness :
  (∃ df,
     SwapiManager.process SwapiManager.PlanetsProcessor Sample.planets = Returned df ∧
     Main.process Main.PlanetsProcessor Sample.planets = Returned df ∧
     length (rows df) = length Sample.planets) ∧
  SwapiManager.process SwapiManager.PlanetsProcessor Sample.planets =
    Returned {| columns := ["population"];
                rows := [[Val (JNum (Decimal.Small 1000 I))]; [NaN];
                         [Val (JNum (Decimal.Small 42 I))]] |}.
Proof.
  split.
  - destruct (proj1 planet_population Sample.planets) as (df & ? & ? & ? & _).
    + discriminate.
    + intros rec Hrec. unfold Sample.planets in Hrec.
      repeat (apply elem_of_cons in Hrec as [->|Hrec]; [by eexists |]).
      by apply elem_of_nil in Hrec.
    + by exists df.
  - destruct (proj2 planet_population
                (Decimal.Small 1000 I) (Decimal.Small 42 I)) as (Hrun & _ & _);
      [reflexivity.. | exact Hrun].
Defined.

(** C4 fails on the empty sequence: every record of it has a [population],
    and the Planet processor raises [KeyError] instead of returning a
    table. *)
Lemma planet_population_counterexample :
  Forall (fun rec : record Decimal.small => is_Some (dict_get "population" rec)) [] ∧
  SwapiManager.process SwapiManager.PlanetsProcessor
    ([] : list (record Decimal.small)) = Raised (KeyError "population") ∧
  Main.process Main.PlanetsProcessor ([] : list (record Decimal.small)) =
    Raised (KeyError "population").
Proof. split_and!; [constructor | reflexivity | reflexivity]. Qed.

Lemma person_full_name_witness :
  (∃ df,
     SwapiManager.process SwapiManager.PeopleProcessor [Sample.luke; Sample.nameless] =
       Returned df ∧
     Main.process Main.PeopleProcessor [Sample.luke; Sample.nameless] = Returned df ∧
     "full_name" ∈ columns df ∧
     length (rows df) = 2) ∧
  (SwapiManager.process SwapiManager.PeopleProcessor [Sample.nameless] =
     Raised (KeyError "name") ∧
   Main.process Main.PeopleProcessor [Sample.nameless] = Raised (KeyError "name")).
Proof.
  split.
  - destruct (proj1 (person_full_name [Sample.luke; Sample.nameless]))
      as (df & ? & ? & ? & ? & _).
    + exists Sample.luke. split; [by left | by eexists].
    + by exists df.
  - apply (proj2 (person_full_name [Sample.nameless])).
    intros rec ->%list_elem_of_singleton. reflexivity.
Defined.

(** C5 fails in four ways: the empty sequence raises although none of its
    records lacks a [name]; a record without a [name] among others does not
    make the processor fail, its [full_name] is missing; a field [full_name]
    of the input is not copied but overwritten by the [name]; and a field
    that is null is stored as a missing cell, like a field the record does
    not have. *)
Lemma person_full_name_counterexample :
  SwapiManager.process SwapiManager.PeopleProcessor
    ([] : list (record Decimal.small)) = Raised (KeyError "name") ∧
  SwapiManager.process SwapiManager.PeopleProcessor [Sample.luke; Sample.nameless] =
    Returned {| columns := ["name"; "height"; "full_name"];
                rows := [[Val (JStr "Luke"); Val (JStr "172"); Val (JStr "Luke")];
                         [NaN; Val (JStr "96"); NaN]] |} ∧
  SwapiManager.process SwapiManager.PeopleProcessor [Sample.alias] =
    Returned {| columns := ["name"; "full_name"];
                rows := [[Val (JStr "Anakin"); Val (JStr "Anakin")]] |} ∧
  SwapiManager.process SwapiManager.PeopleProcessor
    [[("name", JStr "Luke"); ("mass", JNull)]; [("name", JStr "Leia")]] =
    Returned {| columns := ["name"; "mass"; "full_name"];
                rows := [[Val (JStr "Luke"); NaN; Val (JStr "Luke")];
                         [Val (JStr "Leia"); NaN; Val (JStr "Leia")]] |}.
Proof. split_and!; reflexivity. Qed.

(** ** The store *)

Section Store.
Context {number : Type} {numeric : Numeric number}.
Implicit Types (self : SwapiManager.SWAPIDataManager number).
Implicit Types (history : list string).

Lemma add_keys_app (seen l1 l2 : list string) :
  add_keys seen (l1 ++ l2) = add_keys (add_keys seen l1) l2.
Proof. revert seen. induction l1 as [|k l1 IH]; intros seen; simpl; [done | apply IH]. Qed.

Lemma add_keys_snoc_set {V} (d : list (string * V)) history k v :
  dict_keys d = add_keys [] history →
  dict_keys (dict_set k v d) = add_keys [] (history ++ [k]).
Proof. intros Hd. by rewrite dict_keys_set, add_keys_app, <- Hd. Qed.

(** [apply_filter] keeps the names of the store, whether it raises or not. *)
Lemma apply_filter_keys self endpoint columns_to_drop :
  dict_keys (SwapiManager.data
               (SwapiManager.apply_filter self endpoint columns_to_drop).1) =
  dict_keys (SwapiManager.data self).
Proof.
  unfold SwapiManager.apply_filter.
  destruct (dict_get endpoint (SwapiManager.data self)) as [df|] eqn:Hget;
    [|done].
  destruct (drop_inplace df columns_to_drop) as [df' outcome]. simpl.
  rewrite dict_keys_set, decide_True; [done |].
  apply dict_get_is_Some. by rewrite Hget.
Qed.

(** The names of the store are the stored names in the order in which each
    first occurs. *)
Lemma reachable_keys history self :
  reachable history self →
  dict_keys (SwapiManager.data self) = add_keys [] history.
Proof.
  induction 1 as [client|history self endpoint processor _ IH
                 |history self fuel srv endpoint self' outcome _ IH Hfetch
                 |history self endpoint columns_to_drop _ IH]; simpl.
  - done.
  - done.
  - unfold SwapiManager.fetch_entity in Hfetch. unfold stored_by.
    destruct (SwapiManager.fetch_json _ _ _ _) as [[json_data|e]|];
      [| injection Hfetch as <- <-; by rewrite app_nil_r | done].
    destruct (SwapiManager.processors self !! endpoint) as [processor|];
      [| injection Hfetch as <- <-; by rewrite app_nil_r].
    destruct (SwapiManager.process processor json_data) as [df|e];
      injection Hfetch as <- <-; simpl.
    + by apply add_keys_snoc_set.
    + by rewrite app_nil_r.
  - by rewrite apply_filter_keys.
Qed.

(** C8.  In a reachable manager of [swapi_manager.py] no name has two
    tables, and the store lists the names in the order in which they were
    first stored.  A call of [fetch_entity] that stores a table puts the
    frame the processor made of the newly fetched records under the name,
    whatever was there; the other names keep their tables, and the name keeps
    its place or, when new, goes last. *)
Theorem store_one_table_per_name history self :
  reachable history self →
  NoDup (dict_keys (SwapiManager.data self)) ∧
  dict_keys (SwapiManager.data self) = add_keys [] history ∧
  ∀ fuel srv endpoint processor self',
    SwapiManager.processors self !! endpoint = Some processor →
    SwapiManager.fetch_entity fuel srv self endpoint = Some (self', Returned ()) →
    ∃ json_data df,
      SwapiManager.fetch_json fuel srv (SwapiManager.client self) endpoint =
        Some (Returned json_data) ∧
      SwapiManager.process processor json_data = Returned df ∧
      dict_get endpoint (SwapiManager.data self') = Some df ∧
      (∀ other, other ≠ endpoint →
         dict_get other (SwapiManager.data self') =
         dict_get other (SwapiManager.data self)) ∧
      NoDup (dict_keys (SwapiManager.data self')) ∧
      dict_keys (SwapiManager.data self') =
        if decide (endpoint ∈ dict_keys (SwapiManager.data self))
        then dict_keys (SwapiManager.data self)
        else dict_keys (SwapiManager.data self) ++ [endpoint].
Proof.
  intros Hreach. pose proof (reachable_keys _ _ Hreach) as Hkeys.
  assert (NoDup (dict_keys (SwapiManager.data self))) as Hnd.
  { rewrite Hkeys. apply NoDup_add_keys, NoDup_nil_2. }
  split_and!; [done.. |].
  intros fuel srv endpoint processor self' Hproc.
  unfold SwapiManager.fetch_entity. rewrite Hproc.
  destruct (SwapiManager.fetch_json _ _ _ _) as [[json_data|e]|]; [|done..].
  destruct (SwapiManager.process processor json_data) as [df|e] eqn:Hdf; [|done].
  intros [= <-]. exists json_data, df. simpl. split_and!; [done.. | | | |].
  - apply dict_get_set_eq.
  - intros other Hne. by apply dict_get_set_ne.
  - by apply dict_set_NoDup.
  - apply dict_keys_set.
Qed.

End Store.

Lemma people_fetched_reachable : reachable ["people"] Sample.people_fetched.
Proof.
  apply (reach_fetch [] Sample.swapi_manager 2 Sample.two_pages "people"
           Sample.people_fetched (Returned ())).
  - apply reach_register, reach_init.
  - reflexivity.
Defined.

Lemma store_one_table_per_name_witness :
  NoDup (dict_keys (SwapiManager.data Sample.people_fetched)) ∧
  dict_keys (SwapiManager.data Sample.people_fetched) = ["people"] ∧
  ∀ fuel srv endpoint processor self',
    SwapiManager.processors Sample.people_fetched !! endpoint = Some processor →
    SwapiManager.fetch_entity fuel srv Sample.people_fetched endpoint =
      Some (self', Returned ()) →
    ∃ json_data df,
      SwapiManager.fetch_json fuel srv
        (SwapiManager.client Sample.people_fetched) endpoint =
        Some (Returned json_data) ∧
      SwapiManager.process processor json_data = Returned df ∧
      dict_get endpoint (SwapiManager.data self') = Some df ∧
      (∀ other, other ≠ endpoint →
         dict_get other (SwapiManager.data self') =
         dict_get other (SwapiManager.data Sample.people_fetched)) ∧
      NoDup (dict_keys (SwapiManager.data self')) ∧
      dict_keys (SwapiManager.data self') =
        if decide (endpoint ∈ dict_keys (SwapiManager.data Sample.people_fetched))
        then dict_keys (SwapiManager.data Sample.people_fetched)
        else dict_keys (SwapiManager.data Sample.people_fetched) ++ [endpoint].
Proof.
  exact (store_one_table_per_name ["people"] Sample.people_fetched
           people_fetched_reachable).
Defined.

(** ** The workbook *)

Section Workbook.
Context {number : Type}.
Implicit Types (writer : workbook number).
Implicit Types (items : list (string * DataFrame number)).

Lemma to_excel_new_sheet (df : DataFrame number) writer sheet_name :
  sheet_name ∉ dict_keys writer →
  to_excel df writer sheet_name = writer ++ [(sheet_name, frame_cells df)].
Proof. intros Hnew%dict_get_None. unfold to_excel. by rewrite Hnew. Qed.

(** Writing frames under names that are new to the writer and differ from
    one another adds one sheet for each, in order. *)
Lemma write_all_sheets (name_of : string → string) items writer :
  NoDup (dict_keys writer ++ (name_of <$> dict_keys items)) →
  foldl (fun writer item => to_excel item.2 writer (name_of item.1)) writer items =
  writer ++ ((fun item => (name_of item.1, frame_cells item.2)) <$> items).
Proof.
  revert writer. induction items as [|[k df] items IH]; intros writer Hnd; csimpl.
  - by rewrite app_nil_r.
  - unfold dict_keys in *. csimpl in Hnd.
    rewrite to_excel_new_sheet.
    + rewrite IH.
      * by rewrite <- app_assoc.
      * rewrite fmap_app. csimpl. by rewrite <- app_assoc.
    + apply NoDup_app in Hnd as (_ & Hdisj & _).
      intros Hin. apply (Hdisj _ Hin). by left.
Qed.

End Workbook.

(** C9.  [save_to_excel] of [swapi_manager.py] does not write a sheet for
    each stored table.  With processors registered for ["people"] and
    ["People"], the first fetch stores Luke and Leia and the second Han, so
    the store has two tables; both names capitalize to ["People"], the
    second frame is written into the sheet of the first, and the workbook
    has this one sheet, in which Han has taken the place of Luke. *)
Theorem save_to_excel_collision :
  SwapiManager.fetch_entity 1 Sample.two_cases Sample.two_names "people" =
    Some (SwapiManager.set_data Sample.two_names [("people", Sample.luke_leia)],
          Returned ()) ∧
  SwapiManager.fetch_entity 1 Sample.two_cases
    (SwapiManager.set_data Sample.two_names [("people", Sample.luke_leia)])
    "People" = Some (Sample.two_tables, Returned ()) ∧
  SwapiManager.data Sample.two_tables =
    [("people", Sample.luke_leia); ("People", Sample.han_frame)] ∧
  SwapiManager.save_to_excel Sample.two_tables =
    [("People",
      [[Header "name"; Header "height"; Header "full_name"];
       [Data (Val (JStr "Han")); Data (Val (JStr "180")); Data (Val (JStr "Han"))];
       [Data (Val (JStr "Leia")); Data (Val (JStr "150")); Data (Val (JStr "Leia"))]])].
Proof. split_and!; reflexivity. Qed.

(** * Further properties *)

(** ** More on the retrieval *)

Section RetrievalMore.
Context {number : Type} {numeric : Numeric number}.
Implicit Types (srv : server number) (url : option string).
Implicit Types (self : SwapiManager.SWAPIDataManager number).

(** Fuel spent on the pages of a path is fuel for what follows it. *)
Lemma fetch_pages_follows srv url pages url' :
  follows srv url pages url' →
  ∀ fuel all_data,
    SwapiManager.fetch_pages (length pages + fuel) srv url all_data =
    SwapiManager.fetch_pages fuel srv url' (all_data ++ concat pages).
Proof.
  induction 1 as [url|u data rs pages url' Hu Hsrv Hrs _ IH]; intros fuel all_data.
  - by rewrite app_nil_r.
  - simpl. unfold SwapiManager.true_url. rewrite Hu, Hsrv, Hrs, IH.
    by rewrite <- app_assoc.
Qed.

Lemma fetch_pages_follows_short srv url pages url' :
  follows srv url pages url' →
  ∀ fuel all_data, fuel < length pages →
    SwapiManager.fetch_pages fuel srv url all_data = None.
Proof.
  induction 1 as [url|u data rs pages url' Hu Hsrv Hrs _ IH];
    intros fuel all_data Hfuel; simpl in Hfuel; [lia |].
  destruct fuel as [|fuel]; simpl; unfold SwapiManager.true_url; rewrite Hu;
    [done |].
  rewrite Hsrv, Hrs. apply IH. lia.
Qed.

(** X1.  When the pages link in a circle, or without end, [fetch_json] of
    [swapi_manager.py] never returns: whatever the fuel, the loop is still
    running, and so is [fetch_entity].  [live] holds of the URLs of such
    pages: each is answered with a page that has results and links to a
    live URL again. *)
Theorem fetch_json_endless srv (live : string → Prop) self endpoint :
  (∀ u, live u →
     truthy (Some u) = true ∧
     ∃ data rs u', get_page srv u = Returned data ∧ results data = Some rs ∧
                   get_next data = Some u' ∧ live u') →
  live (SwapiManager.base_url (SwapiManager.client self) +:+ endpoint) →
  ∀ fuel,
    SwapiManager.fetch_json fuel srv (SwapiManager.client self) endpoint = None ∧
    SwapiManager.fetch_entity fuel srv self endpoint = None.
Proof.
  intros Hlive Hstart fuel.
  assert (∀ fuel u all_data, live u →
            SwapiManager.fetch_pages fuel srv (Some u) all_data = None) as Hloop.
  { clear fuel. induction fuel as [|fuel IH]; intros u all_data Hu;
      destruct (Hlive u Hu) as (Htrue & data & rs & u' & Hsrv & Hrs & Hnext & Hu');
      simpl; unfold SwapiManager.true_url; rewrite Htrue; [done |].
    rewrite Hsrv, Hrs, Hnext. by apply IH. }
  assert (SwapiManager.fetch_json fuel srv (SwapiManager.client self) endpoint = None)
    as Hjson by by apply Hloop.
  split; [done |]. unfold SwapiManager.fetch_entity. by rewrite Hjson.
Qed.

(** X2.  When a page of the retrieval has no ["results"], [fetch_json] of
    [swapi_manager.py] raises [KeyError] once the fuel reaches that page: the
    records of the pages before it are not returned, and [fetch_entity]
    raises the same error and keeps the manager. *)
Theorem page_without_results srv self endpoint pages u data :
  follows srv
    (Some (SwapiManager.base_url (SwapiManager.client self) +:+ endpoint))
    pages (Some u) →
  truthy (Some u) = true →
  get_page srv u = Returned data →
  results data = None →
  ∀ fuel,
    SwapiManager.fetch_json fuel srv (SwapiManager.client self) endpoint =
      (if decide (length pages < fuel)
       then Some (Raised (KeyError "results")) else None) ∧
    SwapiManager.fetch_entity fuel srv self endpoint =
      (if decide (length pages < fuel)
       then Some (self, Raised (KeyError "results")) else None).
Proof.
  intros Hpath Hu Hsrv Hrs fuel.
  assert (SwapiManager.fetch_json fuel srv (SwapiManager.client self) endpoint =
          if decide (length pages < fuel)
          then Some (Raised (KeyError "results")) else None) as Hjson.
  { unfold SwapiManager.fetch_json. case_decide as Hfuel.
    - replace fuel with (length pages + S (fuel - S (length pages))) by lia.
      rewrite (fetch_pages_follows _ _ _ _ Hpath). simpl.
      unfold SwapiManager.true_url. by rewrite Hu, Hsrv, Hrs.
    - destruct (decide (fuel = length pages)) as [->|Hne].
      + replace (length pages) with (length pages + 0) at 1 by lia.
        rewrite (fetch_pages_follows _ _ _ _ Hpath). simpl.
        unfold SwapiManager.true_url. by rewrite Hu.
      + apply (fetch_pages_follows_short _ _ _ _ Hpath). lia. }
  split; [done |]. unfold SwapiManager.fetch_entity. rewrite Hjson.
  by case_decide.
Qed.

End RetrievalMore.

Lemma looping_live :
  ∀ u, u = "api/people" →
    truthy (Some u) = true ∧
    ∃ data rs u', get_page Sample.looping u = Returned data ∧
                  results data = Some rs ∧
                  get_next data = Some u' ∧ u' = "api/people".
Proof.
  intros u ->. split; [reflexivity |].
  exists (Page (Some [Sample.luke]) (NextUrl "api/people")), [Sample.luke],
    "api/people".
  split_and!; reflexivity.
Defined.

Lemma fetch_json_endless_witness :
  SwapiManager.fetch_json 1000 Sample.looping
    (SwapiManager.client Sample.swapi_manager) "people" = None ∧
  SwapiManager.fetch_entity 1000 Sample.looping Sample.swapi_manager "people" =
    None.
Proof.
  apply (fetch_json_endless Sample.looping (fun u => u = "api/people")
           Sample.swapi_manager "people" looping_live eq_refl 1000).
Defined.

Lemma page_without_results_witness :
  SwapiManager.fetch_json 5 Sample.no_results_second_page
    (SwapiManager.client Sample.swapi_manager) "people" =
    Some (Raised (KeyError "results")) ∧
  SwapiManager.fetch_entity 5 Sample.no_results_second_page
    Sample.swapi_manager "people" =
    Some (Sample.swapi_manager, Raised (KeyError "results")).
Proof.
  apply (page_without_results Sample.no_results_second_page Sample.swapi_manager
           "people" [[Sample.luke; Sample.leia]] "api/people?page=2"
           (Page None NextNull)).
  - eapply follows_page; [reflexivity | reflexivity | reflexivity |].
    apply follows_none.
  - reflexivity.
  - reflexivity.
  - reflexivity.
Defined.

(** ** The registry and the store *)

Section RegistryMore.
Context {number : Type} {numeric : Numeric number}.
Implicit Types (srv : server number).

(** X4.  In either file, registering a processor for a name replaces the
    one registered before, leaves the processors of the other names and does
    not touch the store, so a table fetched earlier stays as it is. *)
Theorem register_processor_overwrites endpoint :
  (∀ (self : SwapiManager.SWAPIDataManager number) old new,
     SwapiManager.register_processor
       (SwapiManager.register_processor self endpoint old) endpoint new =
     SwapiManager.register_processor self endpoint new ∧
     SwapiManager.processors
       (SwapiManager.register_processor self endpoint new) !! endpoint = Some new ∧
     (∀ other, other ≠ endpoint →
        SwapiManager.processors
          (SwapiManager.register_processor self endpoint new) !! other =
        SwapiManager.processors self !! other) ∧
     SwapiManager.data (SwapiManager.register_processor self endpoint new) =
     SwapiManager.data self) ∧
  (∀ (self : Main.SWAPIDataManager number) old new,
     Main.register_processor
       (Main.register_processor self endpoint old) endpoint new =
     Main.register_processor self endpoint new ∧
     Main.processors (Main.register_processor self endpoint new) !! endpoint =
       Some new ∧
     (∀ other, other ≠ endpoint →
        Main.processors (Main.register_processor self endpoint new) !! other =
        Main.processors self !! other) ∧
     Main.data (Main.register_processor self endpoint new) = Main.data self).
Proof.
  split; intros self old new;
    (split_and!;
       [ | apply lookup_insert_eq
         | intros other Hne; by apply lookup_insert_ne
         | done ]).
  - unfold SwapiManager.register_processor; simpl. by rewrite insert_insert_eq.
  - unfold Main.register_processor; simpl. by rewrite insert_insert_eq.
Qed.

(** X5.  A call of [fetch_entity] of [swapi_manager.py] that ends keeps the
    client and the registry and the tables of all other names, and removes
    no name from the store: the names are as before, or the fetched name is
    added last.  When it raises, whatever the exception, the manager is as
    before, so a table stored earlier under the name stays. *)
Theorem fetch_entity_changes_one_table fuel srv
  (self : SwapiManager.SWAPIDataManager number) endpoint self' outcome :
  SwapiManager.fetch_entity fuel srv self endpoint = Some (self', outcome) →
  SwapiManager.client self' = SwapiManager.client self ∧
  SwapiManager.processors self' = SwapiManager.processors self ∧
  (∀ other, other ≠ endpoint →
     dict_get other (SwapiManager.data self') =
     dict_get other (SwapiManager.data self)) ∧
  (dict_keys (SwapiManager.data self') = dict_keys (SwapiManager.data self) ∨
   ((endpoint ∉ dict_keys (SwapiManager.data self)) ∧
    dict_keys (SwapiManager.data self') =
    dict_keys (SwapiManager.data self) ++ [endpoint])) ∧
  (∀ e, outcome = Raised e → self' = self).
Proof.
  unfold SwapiManager.fetch_entity.
  destruct (SwapiManager.fetch_json _ _ _ _) as [[json_data|e]|]; [| |done];
    [destruct (SwapiManager.processors self !! endpoint) as [processor|];
       [destruct (SwapiManager.process processor json_data) as [df|e]|]|];
    intros [= <- <-]; simpl; split_and!; auto; try done.
  - intros other Hne. by apply dict_get_set_ne.
  - rewrite dict_keys_set. case_decide; auto.
Qed.

(** X6.  The same for [fetch_entity] of [main.py]: it keeps the client, the
    registry and the tables of the other names, removes no name, and leaves
    the manager as it was whenever it raises. *)
Theorem main_fetch_entity_changes_one_table srv
  (self : Main.SWAPIDataManager number) endpoint :
  let self' := (Main.fetch_entity srv self endpoint).1 in
  let outcome := (Main.fetch_entity srv self endpoint).2 in
  Main.client self' = Main.client self ∧
  Main.processors self' = Main.processors self ∧
  (∀ other, other ≠ endpoint →
     dict_get other (Main.data self') = dict_get other (Main.data self)) ∧
  (dict_keys (Main.data self') = dict_keys (Main.data self) ∨
   ((endpoint ∉ dict_keys (Main.data self)) ∧
    dict_keys (Main.data self') = dict_keys (Main.data self) ++ [endpoint])) ∧
  (∀ e, outcome = Raised e → self' = self).
Proof.
  unfold Main.fetch_entity.
  destruct (Main.processors self !! endpoint) as [processor|];
    [destruct (Main.fetch_json srv (Main.client self) endpoint) as [json_data|e];
       [destruct (Main.process processor json_data) as [df|e]|]|];
    simpl; split_and!; auto; try done.
  - intros other Hne. by apply dict_get_set_ne.
  - rewrite dict_keys_set. case_decide; auto.
Qed.

End RegistryMore.

Lemma fetch_entity_changes_one_table_witness :
  SwapiManager.client Sample.people_fetched =
    SwapiManager.client Sample.swapi_manager ∧
  SwapiManager.processors Sample.people_fetched =
    SwapiManager.processors Sample.swapi_manager ∧
  (∀ other, other ≠ "people" →
     dict_get other (SwapiManager.data Sample.people_fetched) =
     dict_get other (SwapiManager.data Sample.swapi_manager)) ∧
  (dict_keys (SwapiManager.data Sample.people_fetched) =
   dict_keys (SwapiManager.data Sample.swapi_manager) ∨
   (("people" ∉ dict_keys (SwapiManager.data Sample.swapi_manager)) ∧
    dict_keys (SwapiManager.data Sample.people_fetched) =
    dict_keys (SwapiManager.data Sample.swapi_manager) ++ ["people"])) ∧
  (∀ e, Returned () = Raised e → Sample.people_fetched = Sample.swapi_manager).
Proof.
  apply (fetch_entity_changes_one_table 2 Sample.two_pages Sample.swapi_manager
           "people" Sample.people_fetched (Returned ())).
  reflexivity.
Defined.

(** ** Frames and dropped columns *)

Section FramesMore.
Context {number : Type} {numeric : Numeric number}.
Implicit Types (df : DataFrame number) (row : list (cell number)).
Implicit Types (cols labels : list string) (c : string).
Implicit Types (data : list (record number)).
Implicit Types (self : SwapiManager.SWAPIDataManager number).

Lemma processed_rectangular data target source f df :
  processed data target source f = Returned df →
  rectangular df ∧ frame_columns data `prefix_of` columns df.
Proof.
  unfold processed. case_decide; [|done]. intros [= <-].
  unfold rectangular, columns_with; simpl. split_and!.
  - case_decide; [apply NoDup_frame_columns |].
    apply NoDup_app. split_and!;
      [apply NoDup_frame_columns | | apply NoDup_singleton].
    intros x Hx Hx'%list_elem_of_singleton. congruence.
  - apply Forall_fmap, Forall_forall. intros rec _. simpl.
    unfold derived_row. by rewrite length_fmap.
  - case_decide; [done | by apply prefix_app_r].
Qed.

(** X7.  A frame returned by a processor of either file is rectangular: its
    column labels differ from one another and every row has a cell for each
    column.  The columns start with the field names of the records in the
    order in which they are first seen, so every field of every record has
    its column; the derived column of the processor is a column too, and
    when it is not a field name it is the one column after the field names,
    otherwise the columns are the field names and nothing else. *)
Theorem processors_make_rectangular data df target :
  (target = "full_name" ∧
   (SwapiManager.process SwapiManager.PeopleProcessor data = Returned df ∨
    Main.process Main.PeopleProcessor data = Returned df)) ∨
  (target = "population" ∧
   (SwapiManager.process SwapiManager.PlanetsProcessor data = Returned df ∨
    Main.process Main.PlanetsProcessor data = Returned df)) ∨
  (target = "film_titles" ∧
   SwapiManager.process SwapiManager.FilmsProcessor data = Returned df) ∨
  (target = "film_title" ∧
   Main.process Main.FilmsProcessor data = Returned df) →
  rectangular df ∧
  frame_columns data `prefix_of` columns df ∧
  (∀ rec c, rec ∈ data → c ∈ dict_keys rec → c ∈ columns df) ∧
  target ∈ columns df ∧
  (target ∉ frame_columns data → columns df = frame_columns data ++ [target]) ∧
  (target ∈ frame_columns data → columns df = frame_columns data).
Proof.
  rewrite swapi_people_process, main_people_process, swapi_planets_process,
    main_planets_process, swapi_films_process, main_films_process.
  intros Hdf.
  assert (∃ source f, processed data target source f = Returned df)
    as (source & f & Hp).
  { destruct Hdf as [[-> [?|?]]|[[-> [?|?]]|[[-> ?]|[-> ?]]]]; eauto. }
  destruct (processed_rectangular _ _ _ _ _ Hp) as [Hrect Hpre].
  pose proof (processed_columns _ _ _ _ _ Hp) as Hcols.
  split_and!; [done | done | | | |].
  - intros rec c Hrec Hc. destruct Hpre as [k ->].
    apply elem_of_app. left. apply elem_of_frame_columns. eauto.
  - rewrite Hcols. apply elem_of_columns_with. by right.
  - intros Hnew. rewrite Hcols. unfold columns_with. by rewrite decide_False.
  - intros Hold. rewrite Hcols. unfold columns_with. by rewrite decide_True.
Qed.

Lemma length_keep_cells cols labels row :
  length row = length cols →
  length (keep_cells cols labels row) =
  length (filter (fun c => c ∉ labels) cols).
Proof.
  revert row. induction cols as [|c cols IH]; intros [|v row] Hlen;
    simplify_eq/=; [done |].
  rewrite filter_cons. destruct (decide (c ∈ labels)).
  - rewrite decide_False by (by intros ?). by apply IH.
  - rewrite decide_True by done. simpl. f_equal. by apply IH.
Qed.

Lemma drop_columns_rectangular df labels df' :
  drop_columns df labels = Returned df' →
  rectangular df →
  rectangular df' ∧ length (rows df') = length (rows df).
Proof.
  unfold drop_columns. destruct (filter _ labels); [|done].
  intros [= <-] [Hnd Hrows]. unfold rectangular; simpl. split_and!.
  - by apply NoDup_filter.
  - apply Forall_fmap. eapply Forall_impl; [done |].
    intros row Hlen. simpl. by apply length_keep_cells.
  - apply length_fmap.
Qed.

(** X8.  [apply_filter] keeps the client, the registry, the names of the
    store with their order, and the tables of all other names, whether it
    raises or not.  When the table of the name is rectangular it is
    rectangular afterwards too, with as many rows as before. *)
Theorem apply_filter_keeps_the_rest self endpoint columns_to_drop :
  let self' := (SwapiManager.apply_filter self endpoint columns_to_drop).1 in
  SwapiManager.client self' = SwapiManager.client self ∧
  SwapiManager.processors self' = SwapiManager.processors self ∧
  dict_keys (SwapiManager.data self') = dict_keys (SwapiManager.data self) ∧
  (∀ other, other ≠ endpoint →
     dict_get other (SwapiManager.data self') =
     dict_get other (SwapiManager.data self)) ∧
  (∀ df, dict_get endpoint (SwapiManager.data self) = Some df →
     rectangular df →
     ∃ df', dict_get endpoint (SwapiManager.data self') = Some df' ∧
            rectangular df' ∧ length (rows df') = length (rows df)).
Proof.
  unfold SwapiManager.apply_filter.
  destruct (dict_get endpoint (SwapiManager.data self)) as [df|] eqn:Hget;
    [|by split_and!].
  assert (dict_keys (dict_set endpoint df (SwapiManager.data self)) =
          dict_keys (SwapiManager.data self)) as Hsame.
  { by rewrite (dict_set_same _ _ _ Hget). }
  unfold drop_inplace.
  destruct (drop_columns df columns_to_drop) as [df'|e] eqn:Hdrop; simpl;
    (split_and!; [done | done | | |]).
  - rewrite dict_keys_set, decide_True; [done |].
    apply dict_get_is_Some. by rewrite Hget.
  - intros other Hne. by apply dict_get_set_ne.
  - intros ? [= <-] Hrect. exists df'. split; [apply dict_get_set_eq |].
    by eapply drop_columns_rectangular.
  - done.
  - intros other Hne. by apply dict_get_set_ne.
  - intros ? [= <-] Hrect. exists df. split; [apply dict_get_set_eq | done].
Qed.

Lemma filter_all_true {A} (P : A → Prop) `{!∀ x, Decision (P x)} (l : list A) :
  (∀ x, x ∈ l → P x) → filter P l = l.
Proof.
  induction l as [|x l IH]; intros Hall; [done |].
  rewrite filter_cons, decide_True by (apply Hall; by left).
  f_equal. apply IH. intros y Hy. apply Hall. by right.
Qed.

Lemma dict_set_set {V} k (v1 v2 : V) (d : list (string * V)) :
  dict_set k v2 (dict_set k v1 d) = dict_set k v2 d.
Proof.
  induction d as [|[k' v'] d IH]; simpl.
  - by rewrite decide_True.
  - destruct (decide (k' = k)) as [->|Hne]; simpl.
    + by rewrite decide_True.
    + rewrite decide_False by done. by rewrite IH.
Qed.

(** X9.  Dropping the same columns a second time fails: after a call of
    [apply_filter] that removed a non-empty list of columns from a stored
    table, the same call raises [KeyError] naming all of them, since none is
    a column any more. *)
Theorem apply_filter_twice_raises self endpoint columns_to_drop df self' :
  dict_get endpoint (SwapiManager.data self) = Some df →
  columns_to_drop ≠ [] →
  SwapiManager.apply_filter self endpoint columns_to_drop = (self', Returned ()) →
  SwapiManager.apply_filter self' endpoint columns_to_drop =
  (self', Raised (KeyError_not_in_axis columns_to_drop)).
Proof.
  intros Hget Hne. unfold SwapiManager.apply_filter at 1. rewrite Hget.
  unfold drop_inplace, drop_columns.
  destruct (filter _ columns_to_drop); [|done]. intros [= <-].
  unfold SwapiManager.apply_filter; simpl. rewrite dict_get_set_eq.
  unfold drop_inplace, drop_columns; simpl. rewrite filter_all_true.
  - destruct columns_to_drop; [done |].
    unfold SwapiManager.set_data; simpl. by rewrite dict_set_set.
  - intros l Hl [Hnot _]%list_elem_of_filter. done.
Qed.

Lemma keep_cells_keep_cells cols l1 l2 row :
  keep_cells (filter (fun c => c ∉ l1) cols) l2 (keep_cells cols l1 row) =
  keep_cells cols (l1 ++ l2) row.
Proof.
  revert row. induction cols as [|c cols IH]; intros [|v row]; simpl;
    try done.
  - by destruct (filter _ (c :: cols)).
  - rewrite filter_cons. destruct (decide (c ∈ l1)) as [Hin|Hnin].
    + rewrite decide_False by (by intros ?).
      rewrite decide_True by (apply elem_of_app; by left). apply IH.
    + rewrite decide_True by done. simpl.
      destruct (decide (c ∈ l2)) as [Hin2|Hnin2].
      * rewrite decide_True by (apply elem_of_app; by right). apply IH.
      * rewrite decide_False by (rewrite elem_of_app; tauto).
        f_equal. apply IH.
Qed.

Lemma drop_columns_app df l1 l2 df1 df2 :
  drop_columns df l1 = Returned df1 →
  drop_columns df1 l2 = Returned df2 →
  drop_columns df (l1 ++ l2) = Returned df2.
Proof.
  unfold drop_columns.
  destruct (filter _ l1) eqn:H1; [|done]. intros [= <-]. simpl.
  destruct (filter _ l2) eqn:H2; [|done]. intros [= <-].
  rewrite filter_app, H1. simpl.
  assert (filter (fun l => l ∉ columns df) l2 = []) as ->.
  { destruct (filter (fun l => l ∉ columns df) l2) as [|l ls] eqn:H3; [done |].
    assert (l ∈ filter (fun l => l ∉ columns df) l2) as Hl
      by (rewrite H3; by left).
    apply list_elem_of_filter in Hl as [Hnot Hin].
    assert (l ∈ filter (fun l => l ∉ filter (fun c => c ∉ l1) (columns df)) l2)
      as Hl'.
    { apply list_elem_of_filter. split; [|done].
      intros [_ ?]%list_elem_of_filter. done. }
    rewrite H2 in Hl'. by apply elem_of_nil in Hl'. }
  f_equal. f_equal.
  - rewrite list_filter_filter. apply list_filter_iff. intros c.
    rewrite elem_of_app. tauto.
  - rewrite <- list_fmap_compose. apply list_fmap_ext. intros i row _. simpl.
    symmetry. apply keep_cells_keep_cells.
Qed.

(** X10.  Two calls of [apply_filter] for a name that both return leave the
    manager that one call with the two column lists joined leaves. *)
Theorem apply_filter_composes self endpoint l1 l2 self1 self2 :
  SwapiManager.apply_filter self endpoint l1 = (self1, Returned ()) →
  SwapiManager.apply_filter self1 endpoint l2 = (self2, Returned ()) →
  SwapiManager.apply_filter self endpoint (l1 ++ l2) = (self2, Returned ()).
Proof.
  unfold SwapiManager.apply_filter at 1 3.
  destruct (dict_get endpoint (SwapiManager.data self)) as [df|] eqn:Hget.
  - unfold drop_inplace.
    destruct (drop_columns df l1) as [df1|] eqn:H1; [|done]. intros [= <-].
    unfold SwapiManager.apply_filter; simpl. rewrite dict_get_set_eq.
    unfold drop_inplace.
    destruct (drop_columns df1 l2) as [df2|] eqn:H2; [|done]. intros [= <-].
    rewrite (drop_columns_app _ _ _ _ _ H1 H2).
    unfold SwapiManager.set_data; simpl. by rewrite dict_set_set.
  - intros [= <-]. unfold SwapiManager.apply_filter. rewrite Hget.
    by intros [= <-].
Qed.

End FramesMore.

Lemma processors_make_rectangular_witness :
  rectangular Sample.luke_leia ∧
  frame_columns [Sample.luke; Sample.leia] `prefix_of` columns Sample.luke_leia ∧
  (∀ rec c, rec ∈ [Sample.luke; Sample.leia] → c ∈ dict_keys rec →
            c ∈ columns Sample.luke_leia) ∧
  "full_name" ∈ columns Sample.luke_leia ∧
  columns Sample.luke_leia = ["name"; "height"] ++ ["full_name"].
Proof.
  destruct (processors_make_rectangular [Sample.luke; Sample.leia]
              Sample.luke_leia "full_name")
    as (Hrect & Hpre & Hfields & Hin & Hnew & _).
  - left. split; [reflexivity | left; reflexivity].
  - split_and!; [done.. | reflexivity].
Defined.

Lemma apply_filter_twice_raises_witness :
  SwapiManager.apply_filter
    (SwapiManager.apply_filter Sample.abc_manager "t" ["b"]).1 "t" ["b"] =
  ((SwapiManager.apply_filter Sample.abc_manager "t" ["b"]).1,
   Raised (KeyError_not_in_axis ["b"])).
Proof.
  apply (apply_filter_twice_raises Sample.abc_manager "t" ["b"] Sample.abc).
  - reflexivity.
  - discriminate.
  - reflexivity.
Defined.

Lemma apply_filter_composes_witness :
  SwapiManager.apply_filter Sample.abc_manager "t" (["b"] ++ ["a"]) =
  (SwapiManager.set_data Sample.abc_manager
     [("t", {| columns := ["c"];
               rows := [[Val (JNum (Decimal.Small 3 I))];
                        [Val (JNum (Decimal.Small 6 I))]] |})],
   Returned ()).
Proof.
  apply (apply_filter_composes Sample.abc_manager "t" ["b"] ["a"]
           (SwapiManager.apply_filter Sample.abc_manager "t" ["b"]).1);
    reflexivity.
Defined.

(** ** More on the population *)

Section PopulationMore.
Context {number : Type} {numeric : Numeric number}.
Implicit Types (data : list (record number)).

Lemma numeric_cell_numeric (series : list (cell number)) c :
  c ∈ series →
  numeric_cell series c = NaN ∨ is_Some (cell_number (numeric_cell series c)).
Proof.
  intros Hin. unfold numeric_cell.
  destruct (forallb is_bool_cell series) eqn:Hall.
  - assert (is_bool_cell c = true) as Hb.
    { rewrite forallb_forall in Hall. apply Hall. by apply list_elem_of_In. }
    destruct c as [|[]]; try discriminate. right. by eexists.
  - destruct c as [|[]]; simpl; auto; try (right; by eexists).
    destruct (parse_number _); [right; by eexists | by left].
Qed.

(** X12.  In a frame the Planet processor of either file returns, every
    row has a [population] cell, and the cell is a number or missing, never a
    string or a nested value, whether or not the record had the field. *)
Theorem population_is_numeric data df :
  SwapiManager.process SwapiManager.PlanetsProcessor data = Returned df ∨
  Main.process Main.PlanetsProcessor data = Returned df →
  ∀ i row, rows df !! i = Some row →
    ∃ out, cell_at (columns df) row "population" = Some out ∧
           (out = NaN ∨ is_Some (cell_number out)).
Proof.
  rewrite swapi_planets_process, main_planets_process.
  intros Hdf i row Hrow.
  assert (processed data "population" "population"
            (numeric_cell (field_series data "population")) = Returned df)
    as Hp by (by destruct Hdf).
  destruct (processed_cells _ _ _ _ _ Hp) as (_ & Hlen & Hrows).
  destruct (data !! i) as [rec|] eqn:Hi.
  - destruct (Hrows i rec Hi) as (row' & Hrow' & Hcell & _).
    rewrite Hrow in Hrow'. injection Hrow' as <-.
    eexists. split; [done |]. apply numeric_cell_numeric.
    unfold field_series. apply list_elem_of_fmap. exists rec.
    split; [done | by eapply list_elem_of_lookup_2].
  - apply lookup_ge_None in Hi. apply lookup_lt_Some in Hrow. lia.
Qed.

End PopulationMore.

Lemma population_is_numeric_witness :
  ∃ out,
    cell_at ["population"] [Val (JNum (Decimal.Small 1000 I))] "population" =
      Some out ∧
    (out = NaN ∨ is_Some (cell_number out)).
Proof.
  refine (population_is_numeric Sample.planets
            {| columns := ["population"];
               rows := [[Val (JNum (Decimal.Small 1000 I))]; [NaN];
                        [Val (JNum (Decimal.Small 42 I))]] |}
            _ 0 [Val (JNum (Decimal.Small 1000 I))] _).
  - left. reflexivity.
  - reflexivity.
Defined.

(** ** The two programs as a whole *)

Section Programs.
Context {number : Type} {numeric : Numeric number}.
Implicit Types (srv : server number).

Lemma capitalize_standard_names (x y : string) :
  x ∈ ["people"; "planets"; "films"] →
  y ∈ ["people"; "planets"; "films"] →
  capitalize x = capitalize y → x = y.
Proof.
  rewrite !elem_of_cons, !elem_of_nil.
  intros [->|[->|[->|[]]]] [->|[->|[->|[]]]]; done.
Qed.

Lemma main_manager_registry (endpoint : string) :
  is_Some (SwapiManager.processors
             (SwapiManager.main_manager (number := number)) !! endpoint) →
  endpoint ∈ ["people"; "planets"; "films"].
Proof.
  unfold SwapiManager.main_manager, SwapiManager.register_processor; simpl.
  rewrite !lookup_insert_is_Some', lookup_empty, !elem_of_cons.
  intros [->|[->|[->|[? ?]]]]; auto; done.
Qed.

(** The names a call of [fetch_entity] leaves in the store. *)
Lemma swapi_fetch_entity_names fuel srv
  (self : SwapiManager.SWAPIDataManager number) endpoint self' outcome :
  SwapiManager.fetch_entity fuel srv self endpoint = Some (self', outcome) →
  SwapiManager.processors self' = SwapiManager.processors self ∧
  (NoDup (dict_keys (SwapiManager.data self)) →
   NoDup (dict_keys (SwapiManager.data self'))) ∧
  ∀ k, k ∈ dict_keys (SwapiManager.data self') →
       k ∈ dict_keys (SwapiManager.data self) ∨
       is_Some (SwapiManager.processors self !! k).
Proof.
  unfold SwapiManager.fetch_entity.
  destruct (SwapiManager.fetch_json _ _ _ _) as [[json_data|e]|]; [| |done];
    [destruct (SwapiManager.processors self !! endpoint) as [processor|] eqn:Hp;
       [destruct (SwapiManager.process processor json_data) as [df|e]|]|];
    intros [= <- <-]; simpl; split_and!; auto.
  - apply dict_set_NoDup.
  - intros k. rewrite dict_keys_set. case_decide; [auto |].
    rewrite elem_of_app, list_elem_of_singleton. intros [?| ->]; [auto |].
    right. by rewrite Hp.
Qed.

Lemma swapi_apply_filter_names
  (self : SwapiManager.SWAPIDataManager number) endpoint columns_to_drop :
  SwapiManager.processors
    (SwapiManager.apply_filter self endpoint columns_to_drop).1 =
  SwapiManager.processors self ∧
  dict_keys (SwapiManager.data
               (SwapiManager.apply_filter self endpoint columns_to_drop).1) =
  dict_keys (SwapiManager.data self).
Proof.
  split; [| apply apply_filter_keys].
  unfold SwapiManager.apply_filter.
  destruct (dict_get endpoint (SwapiManager.data self)) as [df|]; [|done].
  by destruct (drop_inplace df columns_to_drop).
Qed.

Lemma main_loop_names fuel srv filters endpoints :
  ∀ (manager manager' : SwapiManager.SWAPIDataManager number) outcome,
    SwapiManager.main_loop fuel srv manager filters endpoints =
      Some (manager', outcome) →
    SwapiManager.processors manager' = SwapiManager.processors manager ∧
    (NoDup (dict_keys (SwapiManager.data manager)) →
     NoDup (dict_keys (SwapiManager.data manager'))) ∧
    ∀ k, k ∈ dict_keys (SwapiManager.data manager') →
         k ∈ dict_keys (SwapiManager.data manager) ∨
         is_Some (SwapiManager.processors manager !! k).
Proof.
  induction endpoints as [|endpoint endpoints IH]; intros manager manager' outcome.
  - intros [= <- <-]. auto.
  - simpl.
    destruct (SwapiManager.fetch_entity fuel srv manager endpoint)
      as [[m1 [[]|e]]|] eqn:Hfetch; [| |done].
    + destruct (swapi_fetch_entity_names _ _ _ _ _ _ Hfetch) as (Hp1 & Hnd1 & Hk1).
      destruct (swapi_apply_filter_names m1 endpoint
                  (default [] (filters !! endpoint))) as [Hp2 Hk2].
      assert (∀ m2 out2,
                SwapiManager.main_loop fuel srv m2 filters endpoints =
                  Some (manager', out2) →
                SwapiManager.processors m2 = SwapiManager.processors manager →
                dict_keys (SwapiManager.data m2) =
                  dict_keys (SwapiManager.data m1) →
                SwapiManager.processors manager' = SwapiManager.processors manager ∧
                (NoDup (dict_keys (SwapiManager.data manager)) →
                 NoDup (dict_keys (SwapiManager.data manager'))) ∧
                ∀ k, k ∈ dict_keys (SwapiManager.data manager') →
                     k ∈ dict_keys (SwapiManager.data manager) ∨
                     is_Some (SwapiManager.processors manager !! k)) as Hrest.
      { intros m2 out2 Hloop Hp Hk.
        destruct (IH _ _ _ Hloop) as (Hp' & Hnd' & Hk').
        split_and!.
        - congruence.
        - intros Hnd. apply Hnd'. rewrite Hk. auto.
        - intros k [Hin|Hin]%Hk'.
          + rewrite Hk in Hin. auto.
          + rewrite Hp in Hin. auto. }
      destruct (filters !! endpoint) as [columns_to_drop|]; simpl in *.
      * destruct (SwapiManager.apply_filter m1 endpoint columns_to_drop)
          as [m2 [[]|e]]; simpl in *.
        -- intros Hloop. eapply Hrest; [done | congruence | done].
        -- intros [= <- <-]. split_and!; [congruence | |].
           ++ intros Hnd. rewrite Hk2. auto.
           ++ intros k. rewrite Hk2. auto.
      * intros Hloop. eapply Hrest; [done.. |]. done.
    + intros [= <- <-]. by apply swapi_fetch_entity_names in Hfetch.
Qed.

(** X13.  When [main] of [swapi_manager.py] ends without an exception, the
    store holds tables only for names among people, planets and films, each
    at most once, and the workbook has exactly one sheet for each stored
    table, in the order of the store: named by the capitalized name, with
    the column labels in the first row and the rows of the table below. *)
Theorem main_writes_one_sheet_per_table fuel srv endpoint filters wb :
  SwapiManager.main fuel srv endpoint filters = Some (Returned wb) →
  ∃ manager,
    SwapiManager.main_loop fuel srv SwapiManager.main_manager filters
      (str_split "," endpoint) = Some (manager, Returned ()) ∧
    (∀ k, k ∈ dict_keys (SwapiManager.data manager) →
          k ∈ ["people"; "planets"; "films"]) ∧
    NoDup (dict_keys (SwapiManager.data manager)) ∧
    wb = (fun item =>
            (capitalize item.1,
             (Header <$> columns item.2) ::
             ((fun row : list (cell number) => Data <$> row) <$> rows item.2)))
         <$> SwapiManager.data manager.
Proof.
  unfold SwapiManager.main.
  destruct (SwapiManager.main_loop _ _ _ _ _) as [[manager [[]|e]]|] eqn:Hloop;
    [|done..].
  intros [= <-]. exists manager.
  destruct (main_loop_names _ _ _ _ _ _ _ Hloop) as (Hp & Hnd & Hk).
  assert (∀ k, k ∈ dict_keys (SwapiManager.data manager) →
               k ∈ ["people"; "planets"; "films"]) as Hnames.
  { intros k [Hin|Hin]%Hk; [by apply elem_of_nil in Hin |].
    by apply main_manager_registry. }
  assert (NoDup (dict_keys (SwapiManager.data manager))) as Hnd'
    by (apply Hnd, NoDup_nil_2).
  split_and!; [done.. |].
  unfold SwapiManager.save_to_excel.
  rewrite (write_all_sheets capitalize); [done |]. simpl.
  apply NoDup_fmap_2_strong; [|done].
  intros x y Hx Hy. apply capitalize_standard_names; auto.
Qed.

(** What a returning [fetch_entity] of [main.py] has done. *)
Lemma main_fetch_entity_stored srv (self : Main.SWAPIDataManager number)
  endpoint self' :
  Main.fetch_entity srv self endpoint = (self', Returned ()) →
  ∃ processor json_data df,
    Main.processors self !! endpoint = Some processor ∧
    Main.fetch_json srv (Main.client self) endpoint = Returned json_data ∧
    Main.process processor json_data = Returned df ∧
    self' = Main.set_data self (dict_set endpoint df (Main.data self)).
Proof.
  unfold Main.fetch_entity.
  destruct (Main.processors self !! endpoint) as [processor|]; [|done].
  destruct (Main.fetch_json srv (Main.client self) endpoint) as [json_data|e];
    [|done].
  destruct (Main.process processor json_data) as [df|e] eqn:Hdf; [|done].
  intros [= <-]. by exists processor, json_data, df.
Qed.

(** X14.  When the script of [main.py] ends without an exception, each of
    the three requests for people, planets and films has returned records,
    the processor of each name has made a frame of them, and the workbook
    has exactly the sheets people, planets and films, in this order, each
    with the column labels of that frame in the first row and its rows
    below. *)
Theorem script_writes_three_sheets srv wb :
  Main.script srv = Returned wb →
  ∃ people planets films df1 df2 df3,
    Main.fetch_json srv (Main.Client "https://swapi.dev/api/") "people" =
      Returned people ∧
    Main.process Main.PeopleProcessor people = Returned df1 ∧
    Main.fetch_json srv (Main.Client "https://swapi.dev/api/") "planets" =
      Returned planets ∧
    Main.process Main.PlanetsProcessor planets = Returned df2 ∧
    Main.fetch_json srv (Main.Client "https://swapi.dev/api/") "films" =
      Returned films ∧
    Main.process Main.FilmsProcessor films = Returned df3 ∧
    wb = [("people", sheet_of df1); ("planets", sheet_of df2);
          ("films", sheet_of df3)].
Proof.
  unfold Main.script.
  destruct (Main.fetch_entity srv Main.script_manager "people")
    as [m1 [[]|e]] eqn:H1; [|done].
  destruct (Main.fetch_entity srv m1 "planets") as [m2 [[]|e]] eqn:H2; [|done].
  destruct (Main.fetch_entity srv m2 "films") as [m3 [[]|e]] eqn:H3; [|done].
  intros [= <-].
  apply main_fetch_entity_stored in H1
    as (p1 & people & df1 & Hp1 & Hj1 & Hd1 & ->).
  apply main_fetch_entity_stored in H2
    as (p2 & planets & df2 & Hp2 & Hj2 & Hd2 & ->).
  apply main_fetch_entity_stored in H3
    as (p3 & films & df3 & Hp3 & Hj3 & Hd3 & ->).
  simpl in Hp1, Hp2, Hp3.
  rewrite lookup_insert_ne, lookup_insert_ne, lookup_insert_eq in Hp1 by done.
  rewrite lookup_insert_ne, lookup_insert_eq in Hp2 by done.
  rewrite lookup_insert_eq in Hp3.
  injection Hp1 as <-. injection Hp2 as <-. injection Hp3 as <-.
  exists people, planets, films, df1, df2, df3.
  split_and!; [done.. |]. reflexivity.
Qed.

Lemma main_loop_app fuel srv filters (l1 l2 : list string) :
  ∀ manager : SwapiManager.SWAPIDataManager number,
    SwapiManager.main_loop fuel srv manager filters (l1 ++ l2) =
    match SwapiManager.main_loop fuel srv manager filters l1 with
    | Some (manager1, Returned _) =>
        SwapiManager.main_loop fuel srv manager1 filters l2
    | Some (manager1, Raised e) => Some (manager1, Raised e)
    | None => None
    end.
Proof.
  induction l1 as [|endpoint l1 IH]; intros manager; [done |]. simpl.
  destruct (SwapiManager.fetch_entity fuel srv manager endpoint)
    as [[m1 [[]|e]]|]; [| done..].
  destruct (filters !! endpoint) as [columns_to_drop|]; [|apply IH].
  destruct (SwapiManager.apply_filter m1 endpoint columns_to_drop)
    as [m2 [[]|e]]; [apply IH | done].
Qed.

(** X16.  [main] of [swapi_manager.py] exports nothing after a failure: when
    the end points before some end point are processed and the fetch or the
    filter of that one raises, [main] ends with this exception and saves no
    workbook, whatever was stored before and whatever end points follow. *)
Theorem main_aborts_without_export fuel srv endpoint filters
  before failing after manager manager' e :
  str_split "," endpoint = before ++ failing :: after →
  SwapiManager.main_loop fuel srv SwapiManager.main_manager filters before =
    Some (manager, Returned ()) →
  SwapiManager.main_loop fuel srv manager filters [failing] =
    Some (manager', Raised e) →
  SwapiManager.main fuel srv endpoint filters = Some (Raised e).
Proof.
  intros Hsplit Hbefore Hfailing. unfold SwapiManager.main.
  rewrite Hsplit, main_loop_app, Hbefore.
  change (failing :: after) with ([failing] ++ after).
  by rewrite main_loop_app, Hfailing.
Qed.

End Programs.

(** ** The end points of the command line *)

Lemma str_split_not_nil sep s : str_split sep s ≠ [].
Proof.
  destruct s as [|a s]; simpl; [done |].
  case_decide; [done |]. by destruct (str_split sep s).
Qed.

(** X15.  The end points [main] iterates over are the pieces of the
    [--endpoint] value between its commas: there is at least one piece, the
    empty value gives one empty name, and the pieces joined with commas are
    the value again. *)
Theorem str_split_join sep s :
  str_split sep s ≠ [] ∧
  str_split sep EmptyString = [EmptyString] ∧
  str_join sep (str_split sep s) = s.
Proof.
  split_and!; [apply str_split_not_nil | done |].
  induction s as [|a s IH]; [done |]. simpl.
  pose proof (str_split_not_nil sep s) as Hne.
  destruct (str_split sep s) as [|piece pieces]; [done |].
  case_decide as Ha.
  - subst a.
    change (str_join sep (EmptyString :: piece :: pieces))
      with (String sep (str_join sep (piece :: pieces))).
    by rewrite IH.
  - rewrite <- IH. by destruct pieces.
Qed.

Lemma main_writes_one_sheet_per_table_witness :
  ∃ manager,
    SwapiManager.main_loop 1 Sample.swapi_dev SwapiManager.main_manager
      {["people" := ["height"]]} (str_split "," "people") =
      Some (manager, Returned ()) ∧
    (∀ k, k ∈ dict_keys (SwapiManager.data manager) →
          k ∈ ["people"; "planets"; "films"]) ∧
    NoDup (dict_keys (SwapiManager.data manager)) ∧
    Sample.main_workbook =
      (fun item =>
         (capitalize item.1,
          (Header <$> columns item.2) ::
          ((fun row : list (cell Decimal.small) => Data <$> row) <$> rows item.2)))
      <$> SwapiManager.data manager.
Proof.
  apply (main_writes_one_sheet_per_table
           1 Sample.swapi_dev "people" {["people" := ["height"]]}
           Sample.main_workbook).
  reflexivity.
Defined.

Lemma script_writes_three_sheets_witness :
  ∃ people planets films df1 df2 df3,
    Main.fetch_json Sample.swapi_dev (Main.Client "https://swapi.dev/api/")
      "people" = Returned people ∧
    Main.process Main.PeopleProcessor people = Returned df1 ∧
    Main.fetch_json Sample.swapi_dev (Main.Client "https://swapi.dev/api/")
      "planets" = Returned planets ∧
    Main.process Main.PlanetsProcessor planets = Returned df2 ∧
    Main.fetch_json Sample.swapi_dev (Main.Client "https://swapi.dev/api/")
      "films" = Returned films ∧
    Main.process Main.FilmsProcessor films = Returned df3 ∧
    Sample.script_workbook =
      [("people", sheet_of df1); ("planets", sheet_of df2);
       ("films", sheet_of df3)].
Proof.
  apply (script_writes_three_sheets Sample.swapi_dev Sample.script_workbook).
  reflexivity.
Defined.

Lemma main_aborts_without_export_witness :
  SwapiManager.main 1 Sample.swapi_dev "people,starships" ∅ =
  Some (Raised (HTTPError 404 "https://swapi.dev/api/starships")).
Proof.
  eapply (main_aborts_without_export
            1 Sample.swapi_dev "people,starships" ∅ ["people"] "starships" []);
    reflexivity.
Defined.
